(** * Domain / selection geometry helpers of victory-chart

    A shallow embedding of [src/components/containers/helper-methods.js]:
    the pure functions that scale and pan a one-dimensional domain and that
    hit-test, resize, pan and constrain a pixel-space selection box.

    JavaScript numbers are modelled as rationals [Q]; [NaN] and the
    infinities are outside the model.  Numeric equality of JavaScript
    ([===] on numbers) is [Qeq], written [==].

    The helpers are first embedded with exact arithmetic.  That embedding
    is used for what the code decides by comparing and selecting, and for
    results stated as the very expression the code evaluates.  The code
    itself computes in binary64, where every sum, difference, product and
    quotient is rounded; [scale], [pan] and [constrainBox] are therefore
    embedded a second time, in [Rounded], with a rounding after each
    operation, and [Double] is that embedding at the rounding of binary64.
    Identities between computed numbers are stated there. *)

From Stdlib Require Import ZArith QArith Qminmax Qabs Qreduction Lia Lqa List Bool.
From Stdlib Require PrimFloat FloatOps SpecFloat Uint63.
Import ListNotations.
Local Open Scope Q_scope.

(** ** JavaScript values used by the helpers *)

(** A domain bound is a number or a [Date]; a [Date] carries its time
    value, a whole number of milliseconds, which is what the unary [+] and
    the arithmetic operators read. *)
Inductive value : Type :=
| Num (n : Q)
| Date (ms : Z).

(** [+val] *)
Definition toNumber (v : value) : Q :=
  match v with
  | Num n => n
  | Date ms => inject_Z ms
  end.

(** The whole part of a number, rounding towards [0]. *)
Definition truncate (q : Q) : Z := Z.quot (Qnum q) (Zpos (Qden q)).

(** [new Date(val)]: the time value of the new date is the number clipped
    to a whole number of milliseconds. *)
Definition newDate (v : value) : value := Date (truncate (toNumber v)).

(** [val instanceof Date] *)
Definition isDate (v : value) : bool :=
  match v with
  | Num _ => false
  | Date _ => true
  end.

(** The comparison operators on numbers. *)
Definition leb (a b : Q) : bool := Qle_bool a b.
Definition geb (a b : Q) : bool := Qle_bool b a.
Definition ltb (a b : Q) : bool := negb (Qle_bool b a).
Definition gtb (a b : Q) : bool := negb (Qle_bool a b).

(** Truthiness of a number: every number but [0] is truthy. *)
Definition truthy (n : Q) : bool := negb (Qeq_bool n 0).

(** Truthiness of an optional number ([undefined] is falsy). *)
Definition truthy_opt (o : option Q) : bool :=
  match o with
  | Some n => truthy n
  | None => false
  end.

(** ** Data model *)

(** A domain is a two-element array [[from, to]]. *)
Definition Domain : Type := (value * value)%type.

(** [{x: Domain, y: Domain}] *)
Record DomainPair : Type := mkDomainPair {
  dx : Domain;
  dy : Domain
}.

(** [{x1, x2, y1, y2}]: four independent pixel coordinates. *)
Record Box : Type := mkBox {
  x1 : Q;
  x2 : Q;
  y1 : Q;
  y2 : Q
}.

(** [{x, y}]: the position of a pointer event. *)
Record Point : Type := mkPoint {
  x : Q;
  y : Q
}.

(** The keys ["top"], ["bottom"], ["left"], ["right"]. *)
Inductive HandleName : Type := Top | Bottom | Left | Right.

(** The object returned by [getHandles], keyed by handle name. *)
Record Handles : Type := mkHandles {
  left : Box;
  right : Box;
  top : Box;
  bottom : Box
}.

(** [handles[opt]] *)
Definition handle (handles : Handles) (opt : HandleName) : Box :=
  match opt with
  | Top => top handles
  | Bottom => bottom handles
  | Left => left handles
  | Right => right handles
  end.

(** The values ["x"] and ["y"] of the [dimension] prop; an absent prop is
    [None]. *)
Inductive Dimension : Type := DimX | DimY.

(** [dimension !== "x"] and [dimension !== "y"]. *)
Definition notX (dimension : option Dimension) : bool :=
  match dimension with
  | Some DimX => false
  | _ => true
  end.

Definition notY (dimension : option Dimension) : bool :=
  match dimension with
  | Some DimY => false
  | _ => true
  end.

(** One axis of the [scale] prop, a d3 scale: the function itself with its
    [domain()] and [range()]. *)
Record AxisScale : Type := mkAxisScale {
  scaleFn : value -> Q;
  sdomain : Domain;
  srange : (Q * Q)%type
}.

(** [{x: scale, y: scale}] *)
Record Scale : Type := mkScale {
  sx : AxisScale;
  sy : AxisScale
}.

(** [{x: [a, b], y: [c, d]}]: the pixel coordinates of a domain pair. *)
Record Coordinates : Type := mkCoordinates {
  cx : (Q * Q)%type;
  cy : (Q * Q)%type
}.

(** The props the helpers read.  An absent prop is [None].  The keys [x1],
    [x2], [y1], [y2] of an explicit box sit on the props object itself, all
    four together ([box]); the props carry no key [x] or [y]. *)
Record Props : Type := mkProps {
  handleWidth : Q;
  dimension : option Dimension;
  pscale : Scale;
  domain : option DomainPair;
  fullDomain : option DomainPair;
  selectedDomain : option DomainPair;
  startX : option Q;
  startY : option Q;
  box : option Box
}.

(** A JavaScript object on which each of the keys [x1], [x2], [y1], [y2]
    may be absent; [{}] has none of them. *)
Record BoxObject : Type := mkBoxObject {
  ox1 : option Q;
  ox2 : option Q;
  oy1 : option Q;
  oy2 : option Q
}.

Definition emptyObject : BoxObject := mkBoxObject None None None None.

Definition ofBox (b : Box) : BoxObject :=
  mkBoxObject (Some (x1 b)) (Some (x2 b)) (Some (y1 b)) (Some (y2 b)).

(** lodash [assign(target, source)]: every key present on [source]
    overwrites the key of [target]. *)
Definition assignKey (t s : option Q) : option Q :=
  match s with
  | Some v => Some v
  | None => t
  end.

Definition assign (target source : BoxObject) : BoxObject :=
  mkBoxObject (assignKey (ox1 target) (ox1 source))
              (assignKey (ox2 target) (ox2 source))
              (assignKey (oy1 target) (oy1 source))
              (assignKey (oy2 target) (oy2 source)).

(** The result of [activeHandles.length && activeHandles]: the number [0]
    when the array is empty, the array otherwise. *)
Inductive ActiveHandles : Type :=
| Zero
| Active (names : list HandleName).


(** ** victory-core's [Collection] *)

(** Modelled from the spec: [Collection.containsDates] of victory-core,
    which is imported by the helpers and not part of this repository; it
    tells whether a domain holds a date-typed value. *)
Definition containsDates (d : Domain) : bool :=
  isDate (fst d) || isDate (snd d).

(** Modelled from the spec: [Collection.getMaxValue] of victory-core on a
    two-element array; the larger of the two numbers, re-expressed as a
    date when either element is one. *)
Definition getMaxValue (a b : value) : value :=
  if containsDates (a, b)
  then newDate (Num (Qmax (toNumber a) (toNumber b)))
  else Num (Qmax (toNumber a) (toNumber b)).

(** Modelled from the spec: [Collection.getMinValue] of victory-core on a
    two-element array; the smaller of the two numbers, re-expressed as a
    date when either element is one. *)
Definition getMinValue (a b : value) : value :=
  if containsDates (a, b)
  then newDate (Num (Qmin (toNumber a) (toNumber b)))
  else Num (Qmin (toNumber a) (toNumber b)).

(** ** Domain helpers *)

(** [scale(currentDomain, originalDomain, factor)] *)
Definition scale (currentDomain originalDomain : Domain) (factor : Q) : Domain :=
  let '(fromBound, toBound) := originalDomain in
  let '(from, to) := currentDomain in
  let range := Qabs (toNumber from - toNumber to) in
  let midpoint := toNumber from + (range / 2) in
  let newRange := (range * factor) / 2 in
  (getMaxValue (Num (midpoint - newRange)) fromBound,
   getMinValue (Num (midpoint + newRange)) toBound).

(** [newDomain.map((val) => new Date(val))] *)
Definition asDates (d : Domain) : Domain :=
  (newDate (fst d), newDate (snd d)).

(** [pan(currentDomain, originalDomain, delta)] *)
Definition pan (currentDomain originalDomain : Domain) (delta : Q) : Domain :=
  let fromCurrent := toNumber (fst currentDomain) in
  let toCurrent := toNumber (snd currentDomain) in
  let fromOriginal := toNumber (fst originalDomain) in
  let toOriginal := toNumber (snd originalDomain) in
  let lowerBound := fromCurrent + delta in
  let upperBound := toCurrent + delta in
  let newDomain :=
    if gtb lowerBound fromOriginal && ltb upperBound toOriginal then
      (Num lowerBound, Num upperBound)
    else if ltb lowerBound fromOriginal then
      let dx := toCurrent - fromCurrent in
      (Num fromOriginal, Num (fromOriginal + dx))
    else if gtb upperBound toOriginal then
      let dx := toCurrent - fromCurrent in
      (Num (toOriginal - dx), Num toOriginal)
    else currentDomain in
  if containsDates currentDomain || containsDates originalDomain
  then asDates newDomain
  else newDomain.

(** [getOriginalDomain(scale)] *)
Definition getOriginalDomain (scale : Scale) : DomainPair :=
  {| dx := sdomain (sx scale);
     dy := sdomain (sy scale) |}.

(** Division of numbers.  Where the divisor is [0] JavaScript yields an
    infinity or [NaN]; those are outside the model, and the quotient is
    [None]. *)
Definition divide (a b : Q) : option Q :=
  if Qeq_bool b 0 then None else Some (a / b).

(** [getDomainScale(domain, scale)] *)
Definition getDomainScale (domain : DomainPair) (scale : Scale) : option Q :=
  let '(from, to) := dx domain in
  let rangeX := srange (sx scale) in
  let plottableWidth := Qabs (fst rangeX - snd rangeX) in
  divide plottableWidth (toNumber to - toNumber from).

(** ** Box geometry *)

(** [withinBounds(point, bounds, padding)]; an omitted [padding] is
    [None]. *)
Definition withinBounds (point : Point) (bounds : Box) (padding : option Q) : bool :=
  let padding := if truthy_opt padding
                 then match padding with Some p => p / 2 | None => 0 end
                 else 0 in
  geb (x point + padding) (Qmin (x1 bounds) (x2 bounds)) &&
  leb (x point - padding) (Qmax (x1 bounds) (x2 bounds)) &&
  geb (y point + padding) (Qmin (y1 bounds) (y2 bounds)) &&
  leb (y point - padding) (Qmax (y1 bounds) (y2 bounds)).

(** [getHandles(props, domainBox)] *)
Definition getHandles (props : Props) (domainBox : Box) : Handles :=
  let minX := Qmin (x1 domainBox) (x2 domainBox) in
  let maxX := Qmax (x1 domainBox) (x2 domainBox) in
  let minY := Qmin (y1 domainBox) (y2 domainBox) in
  let maxY := Qmax (y1 domainBox) (y2 domainBox) in
  let handleWidth := handleWidth props / 2 in
  {| left := mkBox (minX - handleWidth) (minX + handleWidth) (y1 domainBox) (y2 domainBox);
     right := mkBox (maxX - handleWidth) (maxX + handleWidth) (y1 domainBox) (y2 domainBox);
     top := mkBox (x1 domainBox) (x2 domainBox) (minY + handleWidth) (minY - handleWidth);
     bottom := mkBox (x1 domainBox) (x2 domainBox) (maxY + handleWidth) (maxY - handleWidth) |}.

(** [getActiveHandles(point, props, domainBox)] *)
Definition getActiveHandles (point : Point) (props : Props) (domainBox : Box)
  : ActiveHandles :=
  let handles := getHandles props domainBox in
  let options := [Top; Bottom; Left; Right] in
  let activeHandles :=
    fold_left (fun memo opt =>
                 if withinBounds point (handle handles opt) None
                 then memo ++ [opt] else memo)
              options [] in
  match length activeHandles with
  | O => Zero
  | S _ => Active activeHandles
  end.

(** ** Box mutation *)

(** The table [mutations] built by [getResizeMutation]. *)
Definition mutations (box : Box) (name : HandleName) : Box :=
  match name with
  | Left => mkBox (Qmax (x1 box) (x2 box)) (Qmin (x1 box) (x2 box)) (y1 box) (y2 box)
  | Right => mkBox (Qmin (x1 box) (x2 box)) (Qmax (x1 box) (x2 box)) (y1 box) (y2 box)
  | Top => mkBox (x1 box) (x2 box) (Qmax (y1 box) (y2 box)) (Qmin (y1 box) (y2 box))
  | Bottom => mkBox (x1 box) (x2 box) (Qmin (y1 box) (y2 box)) (Qmax (y1 box) (y2 box))
  end.

(** [getResizeMutation(box, handles)] *)
Definition getResizeMutation (box : Box) (handles : list HandleName) : BoxObject :=
  fold_left (fun memo current => assign memo (ofBox (mutations box current)))
            handles emptyObject.

(** [getSelectionMutation(point, box, dimension)] *)
Definition getSelectionMutation (point : Point) (box : Box)
           (dimension : option Dimension) : Box :=
  {| x1 := if notY dimension then x point else x1 box;
     y1 := if notX dimension then y point else y1 box;
     x2 := if notY dimension then x point else x2 box;
     y2 := if notX dimension then y point else y2 box |}.

(** [constrainBox(box, fullDomainBox)] *)
Definition constrainBox (box fullDomainBox : Box) : Box :=
  {| x1 := if gtb (x2 box) (x2 fullDomainBox)
           then x2 fullDomainBox - Qabs (x2 box - x1 box)
           else Qmax (x1 box) (x1 fullDomainBox);
     y1 := if gtb (y2 box) (y2 fullDomainBox)
           then y2 fullDomainBox - Qabs (y2 box - y1 box)
           else Qmax (y1 box) (y1 fullDomainBox);
     x2 := if ltb (x1 box) (x1 fullDomainBox)
           then x1 fullDomainBox + Qabs (x2 box - x1 box)
           else Qmin (x2 box) (x2 fullDomainBox);
     y2 := if ltb (y1 box) (y1 fullDomainBox)
           then y1 fullDomainBox + Qabs (y2 box - y1 box)
           else Qmin (y2 box) (y2 fullDomainBox) |}.

(** ** Helpers that go through victory-core's [Selection] *)

Section WithSelection.

(** [Selection.getDomainCoordinates(scale, domain)] of victory-core, which
    is imported by the helpers and not part of this repository. *)
Variable getDomainCoordinates : Scale -> DomainPair -> Coordinates.

(** [a || b] on optional domain pairs. *)
Definition orElse (a b : option DomainPair) : option DomainPair :=
  match a with
  | Some d => Some d
  | None => b
  end.

(** [getDomainBox(props, fullDomain, selectedDomain)].  The last fallback,
    [this.getOriginalDomain(props)], is handed the props where a scale is
    expected and reads [props.x.domain()]; the props have no key [x], so
    that call throws a [TypeError], which is [None] here. *)
Definition getDomainBox (props : Props) (fullDomain selectedDomain : option DomainPair)
  : option Box :=
  match orElse fullDomain (orElse (domain props) None) with
  | None => None
  | Some fullDomain =>
      let selectedDomain :=
        match selectedDomain with
        | Some d => d
        | None => fullDomain
        end in
      let fullCoordinates := getDomainCoordinates (pscale props) fullDomain in
      let selectedCoordinates := getDomainCoordinates (pscale props) selectedDomain in
      let dimension := dimension props in
      Some
        {| x1 := if notY dimension
                 then Qmin (fst (cx selectedCoordinates)) (snd (cx selectedCoordinates))
                 else Qmin (fst (cx fullCoordinates)) (snd (cx fullCoordinates));
           x2 := if notY dimension
                 then Qmax (fst (cx selectedCoordinates)) (snd (cx selectedCoordinates))
                 else Qmax (fst (cx fullCoordinates)) (snd (cx fullCoordinates));
           y1 := if notX dimension
                 then Qmin (fst (cy selectedCoordinates)) (snd (cy selectedCoordinates))
                 else Qmin (fst (cy fullCoordinates)) (snd (cy fullCoordinates));
           y2 := if notX dimension
                 then Qmax (fst (cy selectedCoordinates)) (snd (cy selectedCoordinates))
                 else Qmax (fst (cy fullCoordinates)) (snd (cy fullCoordinates)) |}
  end.

(** [props.x1 ? props : this.getDomainBox(props, fullDomain, selectedDomain)] *)
Definition boxOfProps (props : Props) : option Box :=
  match box props with
  | Some b =>
      if truthy (x1 b) then Some b
      else getDomainBox props (fullDomain props) (selectedDomain props)
  | None => getDomainBox props (fullDomain props) (selectedDomain props)
  end.

(** [panBox(props, point)]; [None] when [getDomainBox] throws. *)
Definition panBox (props : Props) (point : Point) : option Box :=
  match boxOfProps props with
  | None => None
  | Some b =>
      let dimension := dimension props in
      let deltaX := match startX props with
                    | Some s => if truthy s then s - x point else 0
                    | None => 0
                    end in
      let deltaY := match startY props with
                    | Some s => if truthy s then s - y point else 0
                    | None => 0
                    end in
      Some
        {| x1 := if notY dimension
                 then Qmin (x1 b) (x2 b) - deltaX else Qmin (x1 b) (x2 b);
           x2 := if notY dimension
                 then Qmax (x1 b) (x2 b) - deltaX else Qmax (x1 b) (x2 b);
           y1 := if notX dimension
                 then Qmin (y1 b) (y2 b) - deltaY else Qmin (y1 b) (y2 b);
           y2 := if notX dimension
                 then Qmax (y1 b) (y2 b) - deltaY else Qmax (y1 b) (y2 b) |}
  end.

End WithSelection.

(** ** Binary64 arithmetic *)

(** The nearest integer to [num / den], the even one of two that are
    equally near. *)
Definition nearestEven (num : Z) (den : positive) : Z :=
  let k := (num / Zpos den)%Z in
  let r := (num mod Zpos den)%Z in
  match (2 * r ?= Zpos den)%Z with
  | Lt => k
  | Gt => (k + 1)%Z
  | Eq => if Z.even k then k else (k + 1)%Z
  end.

(** The exponent [e] with [2^e <= n / d < 2^(e+1)]. *)
Definition binade (n d : positive) : Z :=
  let e0 := (Z.log2 (Zpos n) - Z.log2 (Zpos d))%Z in
  let below := if (0 <=? e0)%Z
               then (Zpos n <? 2 ^ e0 * Zpos d)%Z
               else (Zpos n * 2 ^ (- e0) <? Zpos d)%Z in
  if below then (e0 - 1)%Z else e0.

(** The binary64 number nearest to [n / d]: a multiple of [2^p], where
    [p] leaves 53 significant bits and is at least [-1074]. *)
Definition roundPositive (n d : positive) : Q :=
  let p := (Z.max (binade n d) (-1022) - 52)%Z in
  if (0 <=? p)%Z
  then inject_Z (nearestEven (Zpos n) (d * Z.to_pos (2 ^ p)) * 2 ^ p)
  else nearestEven (Zpos n * 2 ^ (- p)) d # Z.to_pos (2 ^ (- p)).

(** Rounding to binary64, to nearest with ties to even.  Magnitudes from
    [2^1024] on, where the code has an infinity, are outside the model. *)
Definition round64 (q : Q) : Q :=
  match Qnum (Qred q) with
  | Z0 => 0
  | Zpos n => roundPositive n (Qden (Qred q))
  | Zneg n => - roundPositive n (Qden (Qred q))
  end.

(** The rational that a binary64 number of the kernel is. *)
Definition ofSpecFloat (f : SpecFloat.spec_float) : Q :=
  match f with
  | SpecFloat.S754_finite s m e =>
      let v := if (0 <=? e)%Z
               then inject_Z (Zpos m * 2 ^ e)
               else Zpos m # Z.to_pos (2 ^ (- e)) in
      if s then - v else v
  | _ => 0
  end.

Definition ofFloat (f : PrimFloat.float) : Q :=
  ofSpecFloat (FloatOps.Prim2SF f).

(** The binary64 number of the kernel for a small integer, and for the
    quotient of two. *)
Definition floatOfZ (n : Z) : PrimFloat.float :=
  PrimFloat.of_uint63 (Uint63.of_Z n).

Definition floatOfRatio (n d : Z) : PrimFloat.float :=
  PrimFloat.div (floatOfZ n) (floatOfZ d).

(** The number is one of binary64. *)
Definition representable (q : Q) : Prop := round64 q == q.

(** The number that a decimal literal of the source denotes. *)
Definition literal (q : Q) : Q := round64 q.

(** The domain helpers with a rounding [rnd] after each arithmetic
    operation; [Math.abs], [Math.max], [Math.min], the comparisons and
    [new Date] do not round. *)
Module Rounded.

Section WithRounding.

Variable rnd : Q -> Q.

(** [scale(currentDomain, originalDomain, factor)] *)
Definition scale (currentDomain originalDomain : Domain) (factor : Q) : Domain :=
  let '(fromBound, toBound) := originalDomain in
  let '(from, to) := currentDomain in
  let range := Qabs (rnd (toNumber from - toNumber to)) in
  let midpoint := rnd (toNumber from + rnd (range / 2)) in
  let newRange := rnd (rnd (range * factor) / 2) in
  (getMaxValue (Num (rnd (midpoint - newRange))) fromBound,
   getMinValue (Num (rnd (midpoint + newRange))) toBound).

(** [pan(currentDomain, originalDomain, delta)] *)
Definition pan (currentDomain originalDomain : Domain) (delta : Q) : Domain :=
  let fromCurrent := toNumber (fst currentDomain) in
  let toCurrent := toNumber (snd currentDomain) in
  let fromOriginal := toNumber (fst originalDomain) in
  let toOriginal := toNumber (snd originalDomain) in
  let lowerBound := rnd (fromCurrent + delta) in
  let upperBound := rnd (toCurrent + delta) in
  let newDomain :=
    if gtb lowerBound fromOriginal && ltb upperBound toOriginal then
      (Num lowerBound, Num upperBound)
    else if ltb lowerBound fromOriginal then
      let dx := rnd (toCurrent - fromCurrent) in
      (Num fromOriginal, Num (rnd (fromOriginal + dx)))
    else if gtb upperBound toOriginal then
      let dx := rnd (toCurrent - fromCurrent) in
      (Num (rnd (toOriginal - dx)), Num toOriginal)
    else currentDomain in
  if containsDates currentDomain || containsDates originalDomain
  then asDates newDomain
  else newDomain.

(** [constrainBox(box, fullDomainBox)] *)
Definition constrainBox (box fullDomainBox : Box) : Box :=
  {| x1 := if gtb (x2 box) (x2 fullDomainBox)
           then rnd (x2 fullDomainBox - Qabs (rnd (x2 box - x1 box)))
           else Qmax (x1 box) (x1 fullDomainBox);
     y1 := if gtb (y2 box) (y2 fullDomainBox)
           then rnd (y2 fullDomainBox - Qabs (rnd (y2 box - y1 box)))
           else Qmax (y1 box) (y1 fullDomainBox);
     x2 := if ltb (x1 box) (x1 fullDomainBox)
           then rnd (x1 fullDomainBox + Qabs (rnd (x2 box - x1 box)))
           else Qmin (x2 box) (x2 fullDomainBox);
     y2 := if ltb (y1 box) (y1 fullDomainBox)
           then rnd (y1 fullDomainBox + Qabs (rnd (y2 box - y1 box)))
           else Qmin (y2 box) (y2 fullDomainBox) |}.

End WithRounding.

End Rounded.

(** The domain helpers in the arithmetic of the code. *)
Module Double.

Definition scale : Domain -> Domain -> Q -> Domain := Rounded.scale round64.

Definition pan : Domain -> Domain -> Q -> Domain := Rounded.pan round64.

Definition constrainBox : Box -> Box -> Box := Rounded.constrainBox round64.

End Double.

(** ** The zoom component *)

(** The part of [VictoryZoom] that drives the domain helpers: its instance
    fields, its state, and its event handlers.  A handler that defers its
    work with [requestAnimationFrame] is modelled with the frame run to its
    end before the next event arrives, and [setState] as taking effect at
    once.  Rendering, the timer and [componentWillReceiveProps] are left
    out. *)
Module VictoryZoom.

(** [fallbackProps.width] *)
Definition fallbackWidth : Q := 450.

(** What the handlers read of [chartRef.getSvgBounds()]. *)
Record Bounds : Type := mkBounds {
  boundsLeft : Q;
  boundsWidth : Q
}.

(** An instance: whether [props.onDomainChange] is set, the fields
    [plottableWidth] and [width] set by the constructor, the x domain of
    [state.domain], the fields [targetBounds], [isPanning], [startX] and
    the x domain of [lastDomain] set by the handlers ([None] and [false]
    while undefined), and the domains handed to [props.onDomainChange], the
    latest first. *)
Record Instance : Type := mkInstance {
  hasOnDomainChange : bool;
  plottableWidth : Q;
  width : Q;
  domain : Domain;
  targetBounds : option Bounds;
  isPanning : bool;
  startX : option Q;
  lastDomain : option Domain;
  reported : list Domain
}.

(** The outcome of a handler: it returns, it throws a [TypeError] on a
    field that is still undefined, or a [NaN] or an infinity arises, from
    where on the model does not follow the code. *)
Inductive result (A : Type) : Type :=
| Done (a : A)
| Throws
| NonFinite.

Arguments Done {A} a.
Arguments Throws {A}.
Arguments NonFinite {A}.

Definition bind {A B : Type} (c : result A) (k : A -> result B) : result B :=
  match c with
  | Done a => k a
  | Throws => Throws
  | NonFinite => NonFinite
  end.

Notation "x <- c ;; k" := (bind c (fun x => k))
  (at level 61, c at next level, right associativity).

(** A quotient that has to be finite. *)
Definition finite (q : option Q) : result Q :=
  match q with
  | Some v => Done v
  | None => NonFinite
  end.

(** The constructor, given what [Helpers.getRange] returns for the x axis,
    [chart.props.width], the x domain of [props.zoomDomain] and the x
    domain that [getDataDomain()] returns. *)
Definition constructor (onDomainChange : bool) (range : Q * Q)
           (chartWidth : option Q) (zoomDomain : option Domain)
           (dataDomain : Domain) : Instance :=
  let '(rangex1, rangex0) := range in
  {| hasOnDomainChange := onDomainChange;
     plottableWidth := rangex0 - rangex1;
     width := match chartWidth with
              | Some w => if truthy w then w else fallbackWidth
              | None => fallbackWidth
              end;
     domain := match zoomDomain with
               | Some d => d
               | None => dataDomain
               end;
     targetBounds := None;
     isPanning := false;
     startX := None;
     lastDomain := None;
     reported := [] |}.

(** [setDomain(domain)] *)
Definition setDomain (this : Instance) (d : Domain) : Instance :=
  {| hasOnDomainChange := hasOnDomainChange this;
     plottableWidth := plottableWidth this;
     width := width this;
     domain := d;
     targetBounds := targetBounds this;
     isPanning := isPanning this;
     startX := startX this;
     lastDomain := lastDomain this;
     reported := if hasOnDomainChange this
                 then d :: reported this else reported this |}.

(** [getDomainScale()] *)
Definition getDomainScale (this : Instance) : result Q :=
  match lastDomain this with
  | None => Throws
  | Some (from, to) =>
      match targetBounds this with
      | None => Throws
      | Some bounds =>
          ratio <- finite (divide (boundsWidth bounds) (width this)) ;;
          let absoluteAxisWidth := ratio * plottableWidth this in
          finite (divide absoluteAxisWidth (toNumber to - toNumber from))
      end
  end.

(** [onMouseDown] *)
Definition onMouseDown (this : Instance) (clientX : Q) (svgBounds : Bounds)
  : Instance :=
  let x := clientX - boundsLeft svgBounds in
  {| hasOnDomainChange := hasOnDomainChange this;
     plottableWidth := plottableWidth this;
     width := width this;
     domain := domain this;
     targetBounds := Some svgBounds;
     isPanning := true;
     startX := Some x;
     lastDomain := Some (domain this);
     reported := reported this |}.

(** [onMouseUp] and [onMouseLeave] *)
Definition stopPanning (this : Instance) : Instance :=
  {| hasOnDomainChange := hasOnDomainChange this;
     plottableWidth := plottableWidth this;
     width := width this;
     domain := domain this;
     targetBounds := targetBounds this;
     isPanning := false;
     startX := startX this;
     lastDomain := lastDomain this;
     reported := reported this |}.

(** [onMouseMove], with the x domain that [getDataDomain()] returns. *)
Definition onMouseMove (this : Instance) (dataDomain : Domain) (clientX : Q)
  : result Instance :=
  if isPanning this then
    match targetBounds this with
    | None => Throws
    | Some bounds =>
        match startX this with
        | None => NonFinite
        | Some start =>
            let delta := start - (clientX - boundsLeft bounds) in
            domainScale <- getDomainScale this ;;
            calculatedDx <- finite (divide delta domainScale) ;;
            match lastDomain this with
            | None => Throws
            | Some last =>
                let nextXDomain := pan last dataDomain calculatedDx in
                Done (setDomain this nextXDomain)
            end
        end
    end
  else Done this.

(** [onWheel], with the x domain that [getDataDomain()] returns. *)
Definition onWheel (this : Instance) (dataDomain : Domain) (deltaY : Q)
  : Instance :=
  let nextXDomain := scale (domain this) dataDomain (1 + deltaY / 300) in
  setDomain this nextXDomain.

(** The events of the parent target. *)
Inductive Event : Type :=
| MouseDown (clientX : Q) (svgBounds : Bounds)
| MouseUp
| MouseLeave
| MouseMove (clientX : Q)
| Wheel (deltaY : Q).

Definition handleEvent (this : Instance) (dataDomain : Domain) (e : Event)
  : result Instance :=
  match e with
  | MouseDown clientX svgBounds => Done (onMouseDown this clientX svgBounds)
  | MouseUp => Done (stopPanning this)
  | MouseLeave => Done (stopPanning this)
  | MouseMove clientX => onMouseMove this dataDomain clientX
  | Wheel deltaY => Done (onWheel this dataDomain deltaY)
  end.

(** A sequence of events, handled one after the other. *)
Fixpoint run (this : Instance) (dataDomain : Domain) (events : list Event)
  : result Instance :=
  match events with
  | [] => Done this
  | e :: rest =>
      next <- handleEvent this dataDomain e ;;
      run next dataDomain rest
  end.

(** The pointer events carry bounds of a width that is not [0], and the
    wheel events a [deltaY] above [-300], which keeps the factor
    [1 + deltaY / 300] positive. *)
Definition wellFormed (e : Event) : Prop :=
  match e with
  | MouseDown _ svgBounds => ~ boundsWidth svgBounds == 0
  | Wheel deltaY => - (300) < deltaY
  | _ => True
  end.

Definition isMove (e : Event) : Prop :=
  match e with
  | MouseMove _ => True
  | _ => False
  end.

End VictoryZoom.

(** ** Sample inputs *)

(** A scale whose axes map a bound to its number, over the unit domain. *)
Definition unitScale : Scale :=
  mkScale (mkAxisScale toNumber (Num 0, Num 1) (0, 1))
          (mkAxisScale toNumber (Num 0, Num 1) (0, 1)).

(** An instance of [getDomainCoordinates]: each bound of the domain pair
    through the scale of its axis. *)
Definition scaledCoordinates (scale : Scale) (d : DomainPair) : Coordinates :=
  {| cx := (scaleFn (sx scale) (fst (dx d)), scaleFn (sx scale) (snd (dx d)));
     cy := (scaleFn (sy scale) (fst (dy d)), scaleFn (sy scale) (snd (dy d))) |}.

(** Props that carry a handle width of [10], a dimension, a start point
    and an explicit box, and no domain. *)
Definition boxProps (dimension : option Dimension) (startX startY : option Q)
           (b : option Box) : Props :=
  mkProps 10 dimension unitScale None None None startX startY b.

(** Props that carry a dimension and the three domains, and no box. *)
Definition domainProps (dimension : option Dimension)
           (domain fullDomain selectedDomain : option DomainPair) : Props :=
  mkProps 10 dimension unitScale domain fullDomain selectedDomain None None None.

(** ** Regions used to state the properties *)

(** The region in which a point hits the handle of a given name: the edge of
    the normalized box, thickened by half of [props.handleWidth] on each
    side. *)
Definition hits (props : Props) (b : Box) (p : Point) (opt : HandleName) : Prop :=
  let h := handleWidth props / 2 in
  let minX := Qmin (x1 b) (x2 b) in
  let maxX := Qmax (x1 b) (x2 b) in
  let minY := Qmin (y1 b) (y2 b) in
  let maxY := Qmax (y1 b) (y2 b) in
  match opt with
  | Top => minX <= x p /\ x p <= maxX /\ minY - h <= y p /\ y p <= minY + h
  | Bottom => minX <= x p /\ x p <= maxX /\ maxY - h <= y p /\ y p <= maxY + h
  | Left => minX - h <= x p /\ x p <= minX + h /\ minY <= y p /\ y p <= maxY
  | Right => maxX - h <= x p /\ x p <= maxX + h /\ minY <= y p /\ y p <= maxY
  end.

(** A domain lies within another one, bound by bound. *)
Definition domainWithin (D O : Domain) : Prop :=
  toNumber (fst O) <= toNumber (fst D) /\ toNumber (snd D) <= toNumber (snd O).

(** Two domains have the same bounds as numbers. *)
Definition sameBounds (D E : Domain) : Prop :=
  toNumber (fst D) == toNumber (fst E) /\ toNumber (snd D) == toNumber (snd E).

(** The corners of a box are in order on both axes. *)
Definition ordered (B : Box) : Prop := x1 B <= x2 B /\ y1 B <= y2 B.

(** Each edge of the box lies between the edges of the outer box. *)
Definition boxWithin (B O : Box) : Prop :=
  x1 O <= x1 B /\ x2 B <= x2 O /\ y1 O <= y1 B /\ y2 B <= y2 O.

(** Two boxes have the same four coordinates as numbers. *)
Definition sameBox (B C : Box) : Prop :=
  x1 B == x1 C /\ x2 B == x2 C /\ y1 B == y1 C /\ y2 B == y2 C.

(** A number of milliseconds that is whole. *)
Definition whole (q : Q) : Prop := inject_Z (truncate q) == q.

(** The outcome of [pan], re-expressed as dates when a date is involved. *)
Definition wrapDates (dates : bool) (d : Domain) : Domain :=
  if dates then asDates d else d.

(** The box sticks out of the outer box on both sides of an axis at once. *)
Definition exceedsBothX (B O : Box) : Prop := x2 O < x2 B /\ x1 B < x1 O.
Definition exceedsBothY (B O : Box) : Prop := y2 O < y2 B /\ y1 B < y1 O.

(** A domain of positive width that lies within another one. *)
Definition positiveWithin (D O : Domain) : Prop :=
  toNumber (fst O) <= toNumber (fst D) /\
  toNumber (fst D) < toNumber (snd D) /\
  toNumber (snd D) <= toNumber (snd O).

(** What the handlers of the zoom component keep true of an instance, for
    the data domain [O]: the widths it divides by are not [0]; the domain
    of the state, and the domain recorded at the last mouse-down, are of
    positive width and lie within [O]; the bounds recorded are not of width
    [0]; while panning, the fields that [onMouseDown] sets are defined; and
    every domain reported lies within [O]. *)
Definition zoomInvariant (O : Domain) (this : VictoryZoom.Instance) : Prop :=
  ~ VictoryZoom.width this == 0 /\
  ~ VictoryZoom.plottableWidth this == 0 /\
  positiveWithin (VictoryZoom.domain this) O /\
  (forall last, VictoryZoom.lastDomain this = Some last -> positiveWithin last O) /\
  (forall bounds, VictoryZoom.targetBounds this = Some bounds ->
                  ~ VictoryZoom.boundsWidth bounds == 0) /\
  (VictoryZoom.isPanning this = true ->
   VictoryZoom.targetBounds this <> None /\
   VictoryZoom.startX this <> None /\
   VictoryZoom.lastDomain this <> None) /\
  Forall (fun d => domainWithin d O) (VictoryZoom.reported this).

(** While panning, the fields that [onMouseDown] sets are defined. *)
Definition fieldsDefined (this : VictoryZoom.Instance) : Prop :=
  VictoryZoom.isPanning this = true ->
  VictoryZoom.targetBounds this <> None /\
  VictoryZoom.startX this <> None /\
  VictoryZoom.lastDomain this <> None.

(** What a move of a drag needs: the fields are defined, and none of the
    numbers that [getDomainScale] divides by is [0]. *)
Definition gestureReady (this : VictoryZoom.Instance) : Prop :=
  ~ VictoryZoom.width this == 0 /\
  ~ VictoryZoom.plottableWidth this == 0 /\
  (forall last, VictoryZoom.lastDomain this = Some last ->
                ~ toNumber (snd last) - toNumber (fst last) == 0) /\
  (forall bounds, VictoryZoom.targetBounds this = Some bounds ->
                  ~ VictoryZoom.boundsWidth bounds == 0) /\
  fieldsDefined this.

(** * Properties *)

(** ** The two embeddings *)

(** Without rounding, the second embedding is the first. *)
Lemma scale_unrounded (D O : Domain) (factor : Q) :
  Rounded.scale (fun q => q) D O factor = scale D O factor.
Proof.
  destruct D, O. reflexivity.
Qed.

Lemma pan_unrounded (D O : Domain) (d : Q) :
  Rounded.pan (fun q => q) D O d = pan D O d.
Proof.
  reflexivity.
Qed.

Lemma constrainBox_unrounded (B O : Box) :
  Rounded.constrainBox (fun q => q) B O = constrainBox B O.
Proof.
  reflexivity.
Qed.

(** ** Comparisons, minimum, maximum and absolute value *)

Lemma Qle_bool_cases (a b : Q) :
  (Qle_bool a b = true /\ a <= b) \/ (Qle_bool a b = false /\ b < a).
Proof.
  destruct (Qle_bool a b) eqn:E.
  - left. split; [reflexivity | now apply Qle_bool_iff].
  - right. split; [reflexivity |].
    apply Qnot_le_lt. intro H. apply Qle_bool_iff in H. congruence.
Qed.

Lemma Qabs_cases (a : Q) :
  (0 <= a /\ Qabs a == a) \/ (a < 0 /\ Qabs a == - a).
Proof.
  destruct (Qlt_le_dec a 0) as [H | H].
  - right. split; [assumption |]. apply Qabs_neg. lra.
  - left. split; [assumption |]. now apply Qabs_pos.
Qed.

(** Decide every comparison that occurs in the goal. *)
Ltac cmp_cases :=
  unfold leb, geb, ltb, gtb in *;
  repeat match goal with
         | |- context [Qle_bool ?a ?b] =>
             let E := fresh "E" in
             let H := fresh "H" in
             destruct (Qle_bool_cases a b) as [[E H] | [E H]];
             rewrite E in *; clear E
         end;
  cbn [negb andb orb] in *.

(** Name every [Qmin], [Qmax] and [Qabs] of the goal and the context,
    keeping only its defining cases, so that linear arithmetic applies. *)
Ltac name_minmax :=
  repeat match goal with
         | |- context [Qmin ?a ?b] =>
             let m := fresh "m" in
             pose proof (Q.min_spec a b); set (m := Qmin a b) in *; clearbody m
         | |- context [Qmax ?a ?b] =>
             let m := fresh "m" in
             pose proof (Q.max_spec a b); set (m := Qmax a b) in *; clearbody m
         | |- context [Qabs ?a] =>
             let m := fresh "m" in
             pose proof (Qabs_cases a); set (m := Qabs a) in *; clearbody m
         | _ : context [Qmin ?a ?b] |- _ =>
             let m := fresh "m" in
             pose proof (Q.min_spec a b); set (m := Qmin a b) in *; clearbody m
         | _ : context [Qmax ?a ?b] |- _ =>
             let m := fresh "m" in
             pose proof (Q.max_spec a b); set (m := Qmax a b) in *; clearbody m
         | _ : context [Qabs ?a] |- _ =>
             let m := fresh "m" in
             pose proof (Qabs_cases a); set (m := Qabs a) in *; clearbody m
         end.

(** A comparison of concrete bounds. *)
Ltac concrete := cbn [toNumber fst snd]; unfold inject_Z; lra.

(** Halving is multiplication by one half. *)
Ltac halves := unfold Qdiv in *; change (/ 2) with (1 # 2) in *.

Ltac minmax_lra := name_minmax; halves; lra.

(** ** Dates *)

Lemma truncate_inject_Z (k : Z) : truncate (inject_Z k) = k.
Proof. unfold truncate, inject_Z. cbn. apply Z.quot_1_r. Qed.

(** The whole part lies between [0] and the number, less than [1] from
    it. *)
Lemma truncate_spec (q : Q) :
  (0 <= q /\ inject_Z (truncate q) <= q /\ q < inject_Z (truncate q + 1)) \/
  (q <= 0 /\ inject_Z (truncate q - 1) < q /\ q <= inject_Z (truncate q)).
Proof.
  destruct q as [n d]. unfold truncate, Qle, Qlt, inject_Z. cbn.
  destruct (Z_le_gt_dec 0 n) as [Hn | Hn].
  - left. rewrite Z.quot_div_nonneg by lia.
    pose proof (Z.mul_div_le n (Zpos d) eq_refl).
    pose proof (Z.mul_succ_div_gt n (Zpos d) eq_refl).
    nia.
  - right.
    replace n with (- (- n))%Z by lia.
    rewrite Z.quot_opp_l by lia.
    rewrite Z.quot_div_nonneg by lia.
    pose proof (Z.mul_div_le (- n) (Zpos d) eq_refl).
    pose proof (Z.mul_succ_div_gt (- n) (Zpos d) eq_refl).
    nia.
Qed.

Lemma truncate_cases (q : Q) :
  (0 <= q /\ inject_Z (truncate q) <= q /\ q < inject_Z (truncate q) + 1) \/
  (q <= 0 /\ inject_Z (truncate q) - 1 < q /\ q <= inject_Z (truncate q)).
Proof.
  destruct (truncate_spec q) as [(H & H1 & H2) | (H & H1 & H2)]; [left | right];
    repeat split; try assumption.
  - rewrite inject_Z_plus in H2. exact H2.
  - unfold Z.sub in H1. rewrite inject_Z_plus in H1. exact H1.
Qed.

Lemma truncate_monotone (a b : Q) : a <= b -> (truncate a <= truncate b)%Z.
Proof.
  intros Hab.
  assert (H : inject_Z (truncate a) < inject_Z (truncate b) + 1 ->
              (truncate a <= truncate b)%Z).
  { intros H. apply Z.lt_succ_r. unfold Z.succ.
    rewrite Zlt_Qlt, inject_Z_plus. exact H. }
  destruct (truncate_cases a) as [(Ha & Ha1 & Ha2) | (Ha & Ha1 & Ha2)];
    destruct (truncate_cases b) as [(Hb & Hb1 & Hb2) | (Hb & Hb1 & Hb2)];
    try (apply H; lra).
  assert (H1 : (truncate a < 1)%Z) by (rewrite Zlt_Qlt; change (inject_Z 1) with 1; lra).
  assert (H2 : (-1 < truncate b)%Z)
    by (rewrite Zlt_Qlt; change (inject_Z (-1)) with (- (1)); lra).
  lia.
Qed.

(** A whole number on one side of a number is on the same side of its
    whole part. *)
Lemma truncate_above (k : Z) (q : Q) :
  inject_Z k <= q -> inject_Z k <= inject_Z (truncate q).
Proof.
  intros H. rewrite <- Zle_Qle. rewrite <- (truncate_inject_Z k).
  now apply truncate_monotone.
Qed.

Lemma truncate_below (k : Z) (q : Q) :
  q <= inject_Z k -> inject_Z (truncate q) <= inject_Z k.
Proof.
  intros H. rewrite <- Zle_Qle. rewrite <- (truncate_inject_Z k).
  now apply truncate_monotone.
Qed.

Lemma toNumber_newDate_whole (v : value) :
  whole (toNumber v) -> toNumber (newDate v) == toNumber v.
Proof. intros H. exact H. Qed.

Lemma whole_date (ms : Z) : whole (toNumber (Date ms)).
Proof. unfold whole. cbn [toNumber]. now rewrite truncate_inject_Z. Qed.

(** ** [scale] *)

(** The bounds of [scale]'s result: the clamped numbers, clipped to whole
    milliseconds where the bound of the original domain is a date. *)
Lemma scale_bounds (D O : Domain) (f : Q) :
  let range := Qabs (toNumber (fst D) - toNumber (snd D)) in
  let midpoint := toNumber (fst D) + range / 2 in
  let lo := Qmax (midpoint - range * f / 2) (toNumber (fst O)) in
  let hi := Qmin (midpoint + range * f / 2) (toNumber (snd O)) in
  toNumber (fst (scale D O f)) =
    (if isDate (fst O) then inject_Z (truncate lo) else lo) /\
  toNumber (snd (scale D O f)) =
    (if isDate (snd O) then inject_Z (truncate hi) else hi).
Proof.
  destruct D as [from to], O as [fromBound toBound].
  unfold scale, getMaxValue, getMinValue, containsDates.
  cbn [fst snd isDate orb].
  destruct (isDate fromBound), (isDate toBound); split; reflexivity.
Qed.

(** C5: for every current domain, every ordered original domain
    [oFrom <= oTo] and every factor [f > 0], the domain returned by [scale]
    has a lower bound [>= oFrom] and an upper bound [<= oTo]. *)
Theorem scale_within_original (D O : Domain) (f : Q) :
  toNumber (fst O) <= toNumber (snd O) ->
  0 < f ->
  toNumber (fst O) <= toNumber (fst (scale D O f)) /\
  toNumber (snd (scale D O f)) <= toNumber (snd O).
Proof.
  intros _ _.
  destruct (scale_bounds D O f) as [-> ->].
  split.
  - destruct (fst O) as [n | ms]; cbn [isDate].
    + apply Q.le_max_r.
    + apply truncate_above. apply Q.le_max_r.
  - destruct (snd O) as [n | ms]; cbn [isDate].
    + apply Q.le_min_r.
    + apply truncate_below. apply Q.le_min_r.
Qed.

Lemma scale_within_original_witness :
  toNumber (fst (scale (Num 40, Num 60) (Num 0, Num 100) (1 # 2))) == 45 /\
  0 <= toNumber (fst (scale (Num 40, Num 60) (Num 0, Num 100) (1 # 2))) /\
  toNumber (snd (scale (Num 40, Num 60) (Num 0, Num 100) (1 # 2))) <= 100.
Proof.
  split; [reflexivity |].
  apply (scale_within_original (Num 40, Num 60) (Num 0, Num 100) (1 # 2));
    [discriminate | reflexivity].
Defined.

(** On numeric domains the result of [scale] is numeric. *)
Lemma scale_numeric (from to oFrom oTo f : Q) :
  containsDates (scale (Num from, Num to) (Num oFrom, Num oTo) f) = false.
Proof. reflexivity. Qed.

(** ** [pan] *)

Section Pan.

Variables D O : Domain.
Variable d : Q.

Let from := toNumber (fst D).
Let to := toNumber (snd D).
Let oFrom := toNumber (fst O).
Let oTo := toNumber (snd O).
Let dates := containsDates D || containsDates O.

(** The branch [pan] takes, and what it returns there. *)
Lemma pan_branches :
  (oFrom < from + d /\ to + d < oTo /\
   pan D O d = wrapDates dates (Num (from + d), Num (to + d))) \/
  (from + d < oFrom /\
   pan D O d = wrapDates dates (Num oFrom, Num (oFrom + (to - from)))) \/
  (oFrom <= from + d /\ oTo < to + d /\
   pan D O d = wrapDates dates (Num (oTo - (to - from)), Num oTo)) \/
  (oFrom <= from + d /\ to + d <= oTo /\
   (oFrom == from + d \/ to + d == oTo) /\
   pan D O d = wrapDates dates D).
Proof.
  unfold pan, wrapDates. fold from to oFrom oTo dates.
  destruct (Qlt_le_dec (from + d) oFrom) as [Hlo | Hlo].
  - right; left. split; [assumption |]. cmp_cases; try lra; reflexivity.
  - destruct (Qlt_le_dec oTo (to + d)) as [Hhi | Hhi].
    + right; right; left. repeat split; try assumption.
      cmp_cases; try lra; reflexivity.
    + destruct (Qlt_le_dec oFrom (from + d)) as [Hlo' | Hlo'];
        [destruct (Qlt_le_dec (to + d) oTo) as [Hhi' | Hhi'] |].
      * left. repeat split; try assumption. cmp_cases; try lra; reflexivity.
      * right; right; right. repeat split; try assumption; [right; lra |].
        cmp_cases; try lra; reflexivity.
      * right; right; right. repeat split; try assumption; [left; lra |].
        cmp_cases; try lra; reflexivity.
Qed.

End Pan.

(** On numeric domains the result of [pan] is numeric. *)
Lemma pan_numeric (from to oFrom oTo d : Q) :
  containsDates (pan (Num from, Num to) (Num oFrom, Num oTo) d) = false.
Proof.
  unfold pan. cbn [containsDates isDate fst snd orb toNumber].
  repeat match goal with |- context [if ?c then _ else _] => destruct c end;
    reflexivity.
Qed.

(** C2: panning [[10, 20]] by [-10] inside [[0, 100]] translates the domain
    to [[0, 10]], which lies within the original domain with its lower bound
    on the original lower bound; [pan] returns the current domain [[10, 20]]
    instead of the translated one. *)
Theorem pan_onto_lower_bound :
  0 <= 10 + - (10) /\ 20 + - (10) <= 100 /\
  pan (Num 10, Num 20) (Num 0, Num 100) (- (10)) = (Num 10, Num 20) /\
  ~ (toNumber (fst (pan (Num 10, Num 20) (Num 0, Num 100) (- (10)))) == 10 + - (10)).
Proof.
  repeat split; try discriminate.
Qed.

(** C6, as amended: for every ordered current domain [from <= to], ordered
    original domain [oFrom <= oTo] and delta [d] whose translated domain
    leaves the original one on exactly one side, [pan] returns the domain
    anchored at the bound that was exceeded, [[oFrom, oFrom + (to - from)]]
    on a lower-bound exit and [[oTo - (to - from), oTo]] on an upper-bound
    exit, each sum and difference being the number that the arithmetic
    computes for it, whatever its rounding [rnd], and each bound being, when
    a date is involved, the date of its whole milliseconds. *)
Theorem pan_clamps_one_side (rnd : Q -> Q) (D O : Domain) (d : Q) :
  let from := toNumber (fst D) in
  let to := toNumber (snd D) in
  let oFrom := toNumber (fst O) in
  let oTo := toNumber (snd O) in
  let dates := containsDates D || containsDates O in
  from <= to ->
  oFrom <= oTo ->
  (rnd (from + d) < oFrom /\ rnd (to + d) <= oTo ->
   Rounded.pan rnd D O d
   = wrapDates dates (Num oFrom, Num (rnd (oFrom + rnd (to - from))))) /\
  (oTo < rnd (to + d) /\ oFrom <= rnd (from + d) ->
   Rounded.pan rnd D O d
   = wrapDates dates (Num (rnd (oTo - rnd (to - from))), Num oTo)).
Proof.
  intros from to oFrom oTo dates _ _.
  unfold Rounded.pan, wrapDates. fold from to oFrom oTo dates.
  split; intros [Ha Hb]; cmp_cases; try lra; reflexivity.
Qed.

Lemma pan_clamps_one_side_witness :
  pan (Num 10, Num 20) (Num 0, Num 100) (- (15)) = (Num 0, Num (0 + (20 - 10))) /\
  Double.pan (Num (literal 10.1), Num (literal 20.2)) (Num 0, Num 100) (literal 95.5)
  = (Num (round64 (100 - round64 (literal 20.2 - literal 10.1))), Num 100) /\
  Double.pan (Num 10.5, Num 20.25) (Date 0, Date 15) 10
  = (Date (truncate (round64 (15 - round64 (20.25 - 10.5)))), Date 15).
Proof.
  split; [| split].
  - apply (proj1 (pan_clamps_one_side (fun q => q)
                    (Num 10, Num 20) (Num 0, Num 100) (- (15))
                    ltac:(concrete) ltac:(concrete))).
    split; concrete.
  - apply (proj2 (pan_clamps_one_side round64
                    (Num (literal 10.1), Num (literal 20.2)) (Num 0, Num 100)
                    (literal 95.5)
                    ltac:(vm_compute; discriminate) ltac:(concrete))).
    split; [vm_compute; reflexivity | vm_compute; discriminate].
  - apply (proj2 (pan_clamps_one_side round64
                    (Num 10.5, Num 20.25) (Date 0, Date 15) 10
                    ltac:(concrete) ltac:(concrete))).
    split; [vm_compute; reflexivity | vm_compute; discriminate].
Defined.

(** ** [withinBounds] *)

(** Without padding, [withinBounds] is membership in the normalized
    rectangle, boundary included. *)
Lemma withinBounds_unpadded (p : Point) (b : Box) :
  withinBounds p b None = true <->
  Qmin (x1 b) (x2 b) <= x p /\ x p <= Qmax (x1 b) (x2 b) /\
  Qmin (y1 b) (y2 b) <= y p /\ y p <= Qmax (y1 b) (y2 b).
Proof.
  unfold withinBounds. cbn [truthy_opt]. split.
  - cmp_cases; intros Hin; try discriminate. repeat split; lra.
  - intros (Hx1 & Hx2 & Hy1 & Hy2). cmp_cases; try lra; reflexivity.
Qed.

(** A zero padding is falsy and counts as no padding. *)
Lemma withinBounds_zero_padding (p : Point) (b : Box) :
  withinBounds p b (Some 0) = withinBounds p b None.
Proof. reflexivity. Qed.

(** C9: [withinBounds] is reflexive: whatever the order of the corners of a
    box, each of its four corner points is within the box with padding
    [0]. *)
Theorem withinBounds_corners (b : Box) :
  withinBounds (mkPoint (x1 b) (y1 b)) b (Some 0) = true /\
  withinBounds (mkPoint (x1 b) (y2 b)) b (Some 0) = true /\
  withinBounds (mkPoint (x2 b) (y1 b)) b (Some 0) = true /\
  withinBounds (mkPoint (x2 b) (y2 b)) b (Some 0) = true.
Proof.
  rewrite !withinBounds_zero_padding, !withinBounds_unpadded. cbn [x y].
  pose proof (Q.le_min_l (x1 b) (x2 b)). pose proof (Q.le_min_r (x1 b) (x2 b)).
  pose proof (Q.le_max_l (x1 b) (x2 b)). pose proof (Q.le_max_r (x1 b) (x2 b)).
  pose proof (Q.le_min_l (y1 b) (y2 b)). pose proof (Q.le_min_r (y1 b) (y2 b)).
  pose proof (Q.le_max_l (y1 b) (y2 b)). pose proof (Q.le_max_r (y1 b) (y2 b)).
  repeat split; assumption.
Qed.

(** ** [getHandles] and [getActiveHandles] *)

Section HandleHits.

Variable props : Props.
Variable b : Box.

Let h := handleWidth props / 2.
Let minX := Qmin (x1 b) (x2 b).
Let maxX := Qmax (x1 b) (x2 b).
Let minY := Qmin (y1 b) (y2 b).
Let maxY := Qmax (y1 b) (y2 b).

Hypothesis handleWidth_pos : 0 < handleWidth props.

Lemma handle_hit (p : Point) (opt : HandleName) :
  withinBounds p (handle (getHandles props b) opt) None = true <->
  hits props b p opt.
Proof.
  rewrite withinBounds_unpadded.
  destruct opt; cbn [handle getHandles top bottom left right hits x1 x2 y1 y2];
    fold h minX maxX minY maxY;
    assert (0 < h) by (subst h; halves; lra);
    clearbody h minX maxX minY maxY;
    split; intros (H1 & H2 & H3 & H4); repeat split; minmax_lra.
Qed.

(** [getActiveHandles] keeps, in the order of [options], the names of the
    handles that the point hits. *)
Lemma getActiveHandles_filter (p : Point) :
  getActiveHandles p props b =
  match filter (fun opt => withinBounds p (handle (getHandles props b) opt) None)
               [Top; Bottom; Left; Right] with
  | [] => Zero
  | names => Active names
  end.
Proof.
  unfold getActiveHandles. cbn [fold_left filter].
  destruct (withinBounds p (handle (getHandles props b) Top) None);
    destruct (withinBounds p (handle (getHandles props b) Bottom) None);
    destruct (withinBounds p (handle (getHandles props b) Left) None);
    destruct (withinBounds p (handle (getHandles props b) Right) None);
    reflexivity.
Qed.

Lemma hit_true (p : Point) (opt : HandleName) :
  hits props b p opt ->
  withinBounds p (handle (getHandles props b) opt) None = true.
Proof. apply handle_hit. Qed.

Lemma hit_false (p : Point) (opt : HandleName) :
  ~ hits props b p opt ->
  withinBounds p (handle (getHandles props b) opt) None = false.
Proof.
  intros Hn. apply not_true_iff_false. now rewrite handle_hit.
Qed.

Lemma box_extent :
  maxX - minX == Qabs (x2 b - x1 b) /\ maxY - minY == Qabs (y2 b - y1 b).
Proof. subst minX maxX minY maxY. split; minmax_lra. Qed.

End HandleHits.

(** Settle, one handle after the other, whether the point of the goal hits
    it; the facts about the box are read from the context. *)
Ltac settle_hits :=
  repeat match goal with
         | |- context [withinBounds ?p (handle (getHandles ?props ?b) ?opt) None] =>
             first
               [ rewrite (hit_true props b) by
                   (try assumption; cbn [hits x y]; repeat split; halves; lra)
               | rewrite (hit_false props b) by
                   (try assumption; cbn [hits x y];
                    intros (? & ? & ? & ?); halves; lra) ]
         end.




(** ** [constrainBox] *)

(** [Qmin] and [Qmax] return one of their arguments. *)
Lemma Qmin_left (a c : Q) : a <= c -> Qmin a c = a.
Proof.
  intros H. unfold Qmin, GenericMinMax.gmin.
  destruct (a ?= c) eqn:E; try reflexivity.
  apply Qle_alt in H. contradiction.
Qed.

Lemma Qmin_right (a c : Q) : c < a -> Qmin a c = c.
Proof.
  intros H. unfold Qmin, GenericMinMax.gmin.
  destruct (a ?= c) eqn:E; try reflexivity.
  - apply Qeq_alt in E. lra.
  - apply Qlt_alt in E. lra.
Qed.

Lemma Qmax_left (a c : Q) : c <= a -> Qmax a c = a.
Proof.
  intros H. unfold Qmax, GenericMinMax.gmax.
  destruct (a ?= c) eqn:E; try reflexivity.
  apply Qlt_alt in E. lra.
Qed.

Lemma Qmax_right (a c : Q) : a < c -> Qmax a c = c.
Proof.
  intros H. unfold Qmax, GenericMinMax.gmax.
  destruct (a ?= c) eqn:E; try reflexivity.
  - apply Qeq_alt in E. lra.
  - apply Qgt_alt in E. lra.
Qed.

(** One axis of [constrainBox]: unless the box sticks out on both sides,
    it comes back as it is or anchored on the side where it stuck out. *)
Lemma constrain_axis_cases (rnd : Q -> Q) (b1 b2 o1 o2 : Q) :
  ~ (o2 < b2 /\ b1 < o1) ->
  let r1 := if gtb b2 o2 then rnd (o2 - Qabs (rnd (b2 - b1))) else Qmax b1 o1 in
  let r2 := if ltb b1 o1 then rnd (o1 + Qabs (rnd (b2 - b1))) else Qmin b2 o2 in
  (o1 <= b1 /\ b2 <= o2 /\ r1 = b1 /\ r2 = b2) \/
  (o2 < b2 /\ r1 = rnd (o2 - Qabs (rnd (b2 - b1))) /\ r2 = o2) \/
  (b1 < o1 /\ r1 = o1 /\ r2 = rnd (o1 + Qabs (rnd (b2 - b1)))).
Proof.
  intros Hn r1 r2. subst r1 r2.
  destruct (Qlt_le_dec o2 b2) as [Hfar | Hfar];
    destruct (Qlt_le_dec b1 o1) as [Hnear | Hnear].
  - exfalso. apply Hn. split; assumption.
  - right; left. cmp_cases; try lra.
    rewrite (Qmin_right b2 o2 Hfar). repeat split; assumption.
  - right; right. cmp_cases; try lra.
    rewrite (Qmax_right b1 o1 Hnear). repeat split; assumption.
  - left. cmp_cases; try lra.
    rewrite (Qmax_left b1 o1 Hnear), (Qmin_left b2 o2 Hfar).
    repeat split; assumption.
Qed.

(** C1, as amended: for every box [B] and outer box [O] such that [B] does
    not stick out of [O] on both sides of the x axis at once, [constrainBox]
    only translates the box on that axis.  Either both edges lie within the
    outer edges and are returned as they are; or [x2] is beyond the outer
    [x2], and the box is returned with [x2] on the outer edge and [x1] at
    the width [abs(x2 - x1)] before it, [O.x2 - abs(B.x2 - B.x1)]; or [x1]
    is before the outer [x1], and the box is returned with [x1] on the outer
    edge and [x2] at the width after it, [O.x1 + abs(B.x2 - B.x1)]; each
    sum and difference being the number that the arithmetic computes for
    it, whatever its rounding [rnd].  Likewise for the y axis. *)
Theorem constrainBox_translates (rnd : Q -> Q) (B O : Box) :
  let R := Rounded.constrainBox rnd B O in
  (~ exceedsBothX B O ->
   (x1 O <= x1 B /\ x2 B <= x2 O /\ x1 R = x1 B /\ x2 R = x2 B) \/
   (x2 O < x2 B /\
    x1 R = rnd (x2 O - Qabs (rnd (x2 B - x1 B))) /\ x2 R = x2 O) \/
   (x1 B < x1 O /\
    x1 R = x1 O /\ x2 R = rnd (x1 O + Qabs (rnd (x2 B - x1 B))))) /\
  (~ exceedsBothY B O ->
   (y1 O <= y1 B /\ y2 B <= y2 O /\ y1 R = y1 B /\ y2 R = y2 B) \/
   (y2 O < y2 B /\
    y1 R = rnd (y2 O - Qabs (rnd (y2 B - y1 B))) /\ y2 R = y2 O) \/
   (y1 B < y1 O /\
    y1 R = y1 O /\ y2 R = rnd (y1 O + Qabs (rnd (y2 B - y1 B))))).
Proof.
  unfold exceedsBothX, exceedsBothY, Rounded.constrainBox. cbn [x1 x2 y1 y2].
  split; intros Hn.
  - apply (constrain_axis_cases rnd). exact Hn.
  - apply (constrain_axis_cases rnd). exact Hn.
Qed.

Lemma constrainBox_translates_witness :
  x1 (constrainBox (mkBox 5 25 (- (5)) 5) (mkBox 0 20 0 20)) = 20 - Qabs (25 - 5) /\
  x2 (constrainBox (mkBox 5 25 (- (5)) 5) (mkBox 0 20 0 20)) = 20 /\
  x1 (Double.constrainBox (mkBox (literal 10.1) (literal 20.2) 0 10)
                          (mkBox 50 400 0 10)) = 50 /\
  x2 (Double.constrainBox (mkBox (literal 10.1) (literal 20.2) 0 10)
                          (mkBox 50 400 0 10))
  = round64 (50 + Qabs (round64 (literal 20.2 - literal 10.1))).
Proof.
  split; [| split; [| split]].
  - destruct (proj1 (constrainBox_translates (fun q => q)
                       (mkBox 5 25 (- (5)) 5) (mkBox 0 20 0 20)))
      as [(_ & H & _) | [(_ & E & _) | (H & _)]];
      [intros [_ H]; cbn [x1 x2] in H; lra
      | exfalso; cbn [x1 x2] in H; lra | exact E | exfalso; cbn [x1 x2] in H; lra].
  - destruct (proj1 (constrainBox_translates (fun q => q)
                       (mkBox 5 25 (- (5)) 5) (mkBox 0 20 0 20)))
      as [(_ & H & _) | [(_ & _ & E) | (H & _)]];
      [intros [_ H]; cbn [x1 x2] in H; lra
      | exfalso; cbn [x1 x2] in H; lra | exact E | exfalso; cbn [x1 x2] in H; lra].
  - destruct (proj1 (constrainBox_translates round64
                       (mkBox (literal 10.1) (literal 20.2) 0 10)
                       (mkBox 50 400 0 10)))
      as [(H & _) | [(H & _) | (_ & E & _)]];
      [intros [H _]; vm_compute in H; discriminate H
      | exfalso; apply H; vm_compute; reflexivity
      | exfalso; vm_compute in H; discriminate H | exact E].
  - destruct (proj1 (constrainBox_translates round64
                       (mkBox (literal 10.1) (literal 20.2) 0 10)
                       (mkBox 50 400 0 10)))
      as [(H & _) | [(H & _) | (_ & _ & E)]];
      [intros [H _]; vm_compute in H; discriminate H
      | exfalso; apply H; vm_compute; reflexivity
      | exfalso; vm_compute in H; discriminate H | exact E].
Defined.

(** C1, as stated, fails: a box that sticks out of the outer box on both
    sides of the x axis comes back wider, [30] for [20]. *)
Lemma constrainBox_widens :
  constrainBox (mkBox (- (5)) 15 0 10) (mkBox 0 10 0 10) =
    mkBox (10 - 20) (0 + 20) 0 10 /\
  ~ (Qabs (x2 (constrainBox (mkBox (- (5)) 15 0 10) (mkBox 0 10 0 10)) -
           x1 (constrainBox (mkBox (- (5)) 15 0 10) (mkBox 0 10 0 10)))
     == Qabs (x2 (mkBox (- (5)) 15 0 10) - x1 (mkBox (- (5)) 15 0 10))).
Proof.
  split; [reflexivity | discriminate].
Qed.

(** ** [getResizeMutation] *)

Lemma assign_ofBox (memo : BoxObject) (b : Box) :
  assign memo (ofBox b) = ofBox b.
Proof. reflexivity. Qed.

(** Every entry of [mutations] carries all four keys, so the merge keeps
    the entry of the last handle only. *)
Lemma getResizeMutation_last (box : Box) (handles : list HandleName) (name : HandleName) :
  getResizeMutation box (handles ++ [name]) = ofBox (mutations box name).
Proof.
  unfold getResizeMutation. rewrite fold_left_app. cbn [fold_left].
  apply assign_ofBox.
Qed.

(** C3: on the ordered box [{x1: 0, x2: 10, y1: 0, y2: 10}] with the handles
    [["top", "left"]] the result carries the update of the left handle,
    [x1 = 10] and [x2 = 0], and the input's [y1 = 0] and [y2 = 10]: the
    update [y1 = max(y1, y2) = 10], [y2 = min(y1, y2) = 0] of the top handle
    is overwritten. *)
Theorem getResizeMutation_top_left :
  getResizeMutation (mkBox 0 10 0 10) [Top; Left] =
    mkBoxObject (Some 10) (Some 0) (Some 0) (Some 10) /\
  ofBox (mutations (mkBox 0 10 0 10) Top) =
    mkBoxObject (Some 0) (Some 10) (Some 10) (Some 0) /\
  ~ (0 == Qmax 0 10).
Proof.
  repeat split. discriminate.
Qed.

(** Each entry of [mutations] spans the box it was built from. *)
Lemma mutations_extent (box : Box) (name : HandleName) :
  let r := mutations box name in
  Qmin (x1 r) (x2 r) == Qmin (x1 box) (x2 box) /\
  Qmax (x1 r) (x2 r) == Qmax (x1 box) (x2 box) /\
  Qmin (y1 r) (y2 r) == Qmin (y1 box) (y2 box) /\
  Qmax (y1 r) (y2 r) == Qmax (y1 box) (y2 box).
Proof.
  destruct name; cbn [mutations x1 x2 y1 y2];
    repeat split; try reflexivity; minmax_lra.
Qed.

(** C10: for every box and every non-empty list of handle names,
    [getResizeMutation] returns a complete box that spans, on both axes,
    the extent of the input: the minimum and the maximum of its x
    coordinates and of its y coordinates are those of the input. *)
Theorem getResizeMutation_extent (box : Box) (handles : list HandleName) :
  handles <> [] ->
  exists r : Box,
    getResizeMutation box handles = ofBox r /\
    Qmin (x1 r) (x2 r) == Qmin (x1 box) (x2 box) /\
    Qmax (x1 r) (x2 r) == Qmax (x1 box) (x2 box) /\
    Qmin (y1 r) (y2 r) == Qmin (y1 box) (y2 box) /\
    Qmax (y1 r) (y2 r) == Qmax (y1 box) (y2 box).
Proof.
  intros Hne.
  destruct (exists_last Hne) as (front & name & ->).
  exists (mutations box name). split.
  - apply getResizeMutation_last.
  - apply mutations_extent.
Qed.

Lemma getResizeMutation_extent_witness :
  exists r : Box,
    getResizeMutation (mkBox 100 50 0 10) [Top; Right] = ofBox r /\
    Qmin (x1 r) (x2 r) == 50 /\ Qmax (x1 r) (x2 r) == 100 /\
    Qmin (y1 r) (y2 r) == 0 /\ Qmax (y1 r) (y2 r) == 10.
Proof.
  apply (getResizeMutation_extent (mkBox 100 50 0 10) [Top; Right]).
  discriminate.
Defined.

(** ** [panBox] *)

Section PanBox.

Variable getDomainCoordinates : Scale -> DomainPair -> Coordinates.

(** An explicit box with a truthy [x1] is the box that [panBox] moves. *)
Lemma boxOfProps_explicit (props : Props) (b : Box) :
  box props = Some b ->
  truthy (x1 b) = true ->
  boxOfProps getDomainCoordinates props = Some b.
Proof.
  intros Hb Ht. unfold boxOfProps. now rewrite Hb, Ht.
Qed.

(** C4, as amended: for every props record carrying an explicit box whose
    [x1] is truthy, and every pointer point, with [dimension = "x"]
    [panBox] returns a box with [y1 = min(y1, y2)] and [y2 = max(y1, y2)]
    of the input box: the excluded axis is not translated, its two edges
    are put in order, and they are the input's own [y1] and [y2] when
    [y1 <= y2]; symmetrically for [dimension = "y"] and the x edges. *)
Theorem panBox_excluded_axis (props : Props) (point : Point) (b : Box) :
  box props = Some b ->
  truthy (x1 b) = true ->
  (dimension props = Some DimX ->
   exists r : Box,
     panBox getDomainCoordinates props point = Some r /\
     y1 r = Qmin (y1 b) (y2 b) /\ y2 r = Qmax (y1 b) (y2 b) /\
     (y1 b <= y2 b -> y1 r == y1 b /\ y2 r == y2 b)) /\
  (dimension props = Some DimY ->
   exists r : Box,
     panBox getDomainCoordinates props point = Some r /\
     x1 r = Qmin (x1 b) (x2 b) /\ x2 r = Qmax (x1 b) (x2 b) /\
     (x1 b <= x2 b -> x1 r == x1 b /\ x2 r == x2 b)).
Proof.
  intros Hb Ht.
  pose proof (boxOfProps_explicit props b Hb Ht) as E.
  split; intros Hd; unfold panBox; rewrite E, Hd; cbn [notX notY];
    eexists; (split; [reflexivity |]); cbn [x1 x2 y1 y2];
    repeat split; try reflexivity; minmax_lra.
Qed.

End PanBox.

Lemma panBox_excluded_axis_witness :
  exists r : Box,
    panBox (fun _ _ => mkCoordinates (0, 0) (0, 0))
           (mkProps 10 (Some DimX)
                    (mkScale (mkAxisScale toNumber (Num 0, Num 1) (0, 1))
                             (mkAxisScale toNumber (Num 0, Num 1) (0, 1)))
                    None None None (Some 5) (Some 5) (Some (mkBox 1 2 0 10)))
           (mkPoint 3 4) = Some r /\
    y1 r = 0 /\ y2 r = 10.
Proof.
  destruct (panBox_excluded_axis
              (fun _ _ => mkCoordinates (0, 0) (0, 0))
              (mkProps 10 (Some DimX)
                       (mkScale (mkAxisScale toNumber (Num 0, Num 1) (0, 1))
                                (mkAxisScale toNumber (Num 0, Num 1) (0, 1)))
                       None None None (Some 5) (Some 5) (Some (mkBox 1 2 0 10)))
              (mkPoint 3 4) (mkBox 1 2 0 10))
    as [H _]; [reflexivity | reflexivity |].
  destruct H as (r & Hr & H1 & H2 & _); [reflexivity |].
  exists r. repeat split; assumption.
Defined.

(** C4, as stated, fails: with [dimension = "x"] the y edges of the
    inverted box [{x1: 1, x2: 2, y1: 10, y2: 0}] come back exchanged,
    [y1 = 0] and [y2 = 10]. *)
Lemma panBox_orders_excluded_axis :
  panBox (fun _ _ => mkCoordinates (0, 0) (0, 0))
         (mkProps 10 (Some DimX)
                  (mkScale (mkAxisScale toNumber (Num 0, Num 1) (0, 1))
                           (mkAxisScale toNumber (Num 0, Num 1) (0, 1)))
                  None None None (Some 5) (Some 5) (Some (mkBox 1 2 10 0)))
         (mkPoint 3 4) = Some (mkBox (1 - (5 - 3)) (2 - (5 - 3)) 0 10) /\
  ~ (0 == y1 (mkBox 1 2 10 0)) /\ ~ (10 == y2 (mkBox 1 2 10 0)).
Proof.
  repeat split; discriminate.
Qed.

(** ** The helpers in binary64 *)

(** [round64] against the binary64 arithmetic of the kernel: sums,
    differences, products and quotients, among them a quotient in the
    subnormal range, and the two computations of the counterexamples
    below. *)
Lemma round64_agrees_with_kernel :
  ofFloat (floatOfRatio 1 10) == literal 0.1 /\
  ofFloat (PrimFloat.add (floatOfRatio 1 10) (floatOfRatio 2 10))
  == round64 (literal 0.1 + literal 0.2) /\
  ofFloat (PrimFloat.sub (floatOfRatio 3 10) (floatOfRatio 1 10))
  == round64 (literal 0.3 - literal 0.1) /\
  ofFloat (PrimFloat.mul (floatOfRatio 1 10) (floatOfRatio 33 10))
  == round64 (literal 0.1 * literal 3.3) /\
  ofFloat (PrimFloat.div (floatOfZ 1) (floatOfZ 9007199254740991))
  == round64 (1 / 9007199254740991) /\
  ofFloat (PrimFloat.div (PrimFloat.ldshiftexp (floatOfZ 1) (Uint63.of_Z (2101 - 1060)))
                         (floatOfZ 3))
  == round64 ((1 # Z.to_pos (2 ^ 1060)) / 3) /\
  ofFloat (PrimFloat.sub
             (PrimFloat.add (floatOfRatio 1 10)
                (PrimFloat.div
                   (PrimFloat.abs (PrimFloat.sub (floatOfRatio 1 10) (floatOfRatio 3 10)))
                   (floatOfZ 2)))
             (PrimFloat.div
                (PrimFloat.mul
                   (PrimFloat.abs (PrimFloat.sub (floatOfRatio 1 10) (floatOfRatio 3 10)))
                   (floatOfZ 1))
                (floatOfZ 2)))
  == toNumber (fst (Double.scale (Num (literal 0.1), Num (literal 0.3))
                                 (Num 0, Num 1) 1)) /\
  ofFloat (PrimFloat.sub (floatOfZ 100)
             (PrimFloat.sub (floatOfRatio 202 10) (floatOfRatio 101 10)))
  == toNumber (fst (Double.pan (Num (literal 10.1), Num (literal 20.2))
                               (Num 0, Num 100) (literal 95.5))).
Proof.
  repeat split; vm_compute; reflexivity.
Qed.

(** Equal numbers are rounded to the same number. *)
Lemma round64_proper (a c : Q) : a == c -> round64 a = round64 c.
Proof.
  intros E. unfold round64. now rewrite (Qred_complete a c E).
Qed.

Lemma Qred_inject_Z (n : Z) : Qred (inject_Z n) = inject_Z n.
Proof.
  pose proof (gcd_Qred (inject_Z n)) as Hg.
  pose proof (Qred_correct (inject_Z n)) as He.
  destruct (Qred (inject_Z n)) as [a b].
  unfold Qeq, inject_Z in *. cbn in *.
  assert (Ea : a = (Zpos b * n)%Z) by lia.
  rewrite Ea in Hg. rewrite Z.gcd_comm, Z.gcd_mul_diag_l in Hg by lia.
  injection Hg as ->. f_equal. lia.
Qed.

Lemma nearestEven_multiple (k : Z) (d : positive) :
  nearestEven (k * Zpos d) d = k.
Proof.
  unfold nearestEven.
  rewrite Z.div_mul, Z.mod_mul by lia. reflexivity.
Qed.

(** A positive integer up to [2^53] is a number of binary64. *)
Lemma roundPositive_integer (n : positive) :
  (Zpos n <= 2 ^ 53)%Z -> roundPositive n 1 == inject_Z (Zpos n).
Proof.
  intros Hn.
  pose proof (Z.log2_spec (Zpos n) eq_refl) as [Hlo Hhi].
  pose proof (Z.log2_nonneg (Zpos n)) as H0.
  assert (H53 : (Z.log2 (Zpos n) <= 53)%Z).
  { rewrite <- (Z.log2_pow2 53) by lia. now apply Z.log2_le_mono. }
  unfold roundPositive, binade.
  change (Z.log2 1) with 0%Z. rewrite Z.sub_0_r.
  replace (0 <=? Z.log2 (Zpos n))%Z with true by (symmetry; apply Z.leb_le; lia).
  replace (Zpos n <? 2 ^ Z.log2 (Zpos n) * 1)%Z with false
    by (symmetry; apply Z.ltb_ge; lia).
  rewrite Z.max_l by lia.
  set (e := Z.log2 (Zpos n)) in *.
  destruct (Z_le_gt_dec 0 (e - 52)) as [Hp | Hp].
  - replace (0 <=? e - 52)%Z with true by (symmetry; apply Z.leb_le; lia).
    assert (He : e = 52%Z \/ e = 53%Z) by lia.
    destruct He as [-> | ->].
    + change (52 - 52)%Z with 0%Z. change (2 ^ 0)%Z with 1%Z.
      change (1 * Z.to_pos 1)%positive with 1%positive.
      rewrite <- (Z.mul_1_r (Zpos n)) at 1.
      change 1%Z with (Zpos 1) at 1. rewrite nearestEven_multiple.
      now rewrite Z.mul_1_r.
    + assert (En : Zpos n = (2 ^ 53)%Z) by lia.
      rewrite En. vm_compute. reflexivity.
  - replace (0 <=? e - 52)%Z with false by (symmetry; apply Z.leb_gt; lia).
    assert (Hpow : (0 < 2 ^ (- (e - 52)))%Z) by (apply Z.pow_pos_nonneg; lia).
    rewrite <- (Z.mul_1_r (Zpos n * 2 ^ (- (e - 52)))).
    change 1%Z with (Zpos 1) at 1. rewrite nearestEven_multiple.
    unfold Qeq, inject_Z. cbn [Qnum Qden].
    rewrite Z2Pos.id by lia. lia.
Qed.

(** Every integer of magnitude up to [2^53] is a number of binary64. *)
Lemma integer_representable (n : Z) :
  (- 2 ^ 53 <= n <= 2 ^ 53)%Z -> representable (inject_Z n).
Proof.
  intros Hn. unfold representable, round64.
  rewrite Qred_inject_Z. cbn [Qnum Qden inject_Z].
  destruct n as [| p | p].
  - reflexivity.
  - apply roundPositive_integer. lia.
  - rewrite roundPositive_integer by lia. reflexivity.
Qed.

(** An odd number over [2] is in lowest terms. *)
Lemma Qred_half (n : Z) : Z.odd n = true -> Qred (n # 2) = n # 2.
Proof.
  intros Hodd.
  pose proof (gcd_Qred (n # 2)) as Hg.
  pose proof (Qred_correct (n # 2)) as He.
  destruct (Qred (n # 2)) as [a b].
  unfold Qeq in *. cbn [Qnum Qden] in *.
  assert (Hdiv : (Zpos b | 2)%Z).
  { apply (Z.gauss (Zpos b) a 2).
    - exists n. lia.
    - now rewrite Z.gcd_comm. }
  assert (Hb : (Zpos b <= 2)%Z) by (apply Z.divide_pos_le; [lia | exact Hdiv]).
  assert (Eb : b = 1%positive \/ b = 2%positive) by lia.
  destruct Eb as [-> | ->].
  - exfalso. rewrite <- Z.negb_even in Hodd.
    assert (Hev : Z.even n = true) by (apply Z.even_spec; exists a; lia).
    rewrite Hev in Hodd. discriminate Hodd.
  - f_equal. lia.
Qed.

(** Half an odd positive integer below [2^53] is a number of binary64. *)
Lemma roundPositive_half (n : positive) :
  (Zpos n < 2 ^ 53)%Z -> roundPositive n 2 == Zpos n # 2.
Proof.
  intros Hn.
  pose proof (Z.log2_spec (Zpos n) eq_refl) as [Hlo Hhi].
  pose proof (Z.log2_nonneg (Zpos n)) as H0.
  assert (H52 : (Z.log2 (Zpos n) <= 52)%Z).
  { apply Z.lt_succ_r. apply Z.log2_lt_pow2; lia. }
  unfold roundPositive, binade.
  change (Z.log2 2) with 1%Z.
  set (e := Z.log2 (Zpos n)) in *.
  destruct (Z.eq_dec e 0) as [E0 | E0].
  - rewrite E0 in *. assert (En : n = 1%positive) by (change (2 ^ Z.succ 0)%Z with 2%Z in Hhi; lia).
    rewrite En. vm_compute. reflexivity.
  - replace (0 <=? e - 1)%Z with true by (symmetry; apply Z.leb_le; lia).
    assert (Epow : (2 ^ (e - 1) * 2 = 2 ^ e)%Z).
    { rewrite Z.mul_comm, <- Z.pow_succ_r by lia. f_equal. lia. }
    rewrite Epow.
    replace (Zpos n <? 2 ^ e)%Z with false by (symmetry; apply Z.ltb_ge; lia).
    rewrite Z.max_l by lia.
    replace (0 <=? e - 1 - 52)%Z with false by (symmetry; apply Z.leb_gt; lia).
    replace (- (e - 1 - 52))%Z with (Z.succ (52 - e)) by lia.
    rewrite Z.pow_succ_r by lia.
    assert (Hpow : (0 < 2 ^ (52 - e))%Z) by (apply Z.pow_pos_nonneg; lia).
    replace (Zpos n * (2 * 2 ^ (52 - e)))%Z with (Zpos n * 2 ^ (52 - e) * Zpos 2)%Z by lia.
    rewrite nearestEven_multiple.
    unfold Qeq. cbn [Qnum Qden].
    rewrite Z2Pos.id by lia. lia.
Qed.

(** Half an integer of magnitude up to [2^53] is a number of binary64. *)
Lemma half_integer_representable (n : Z) :
  (- 2 ^ 53 <= n <= 2 ^ 53)%Z -> representable (inject_Z n / 2).
Proof.
  intros Hn.
  destruct (Z.odd n) eqn:Hodd.
  - assert (E : inject_Z n / 2 == n # 2).
    { unfold Qeq, Qdiv, Qmult, Qinv, inject_Z. cbn. lia. }
    unfold representable. rewrite (round64_proper _ _ E), E.
    assert (Hlt : (- 2 ^ 53 < n < 2 ^ 53)%Z).
    { destruct (Z.eq_dec n (2 ^ 53)) as [-> | ?]; [discriminate Hodd |].
      destruct (Z.eq_dec n (- 2 ^ 53)) as [-> | ?]; [discriminate Hodd |]. lia. }
    unfold round64. rewrite (Qred_half n Hodd). cbn [Qnum Qden].
    destruct n as [| p | p].
    + discriminate Hodd.
    + apply roundPositive_half. lia.
    + rewrite roundPositive_half by lia. reflexivity.
  - rewrite <- Z.negb_even in Hodd. apply negb_false_iff in Hodd.
    apply Z.even_spec in Hodd. destruct Hodd as [h Eh].
    assert (E : inject_Z n / 2 == inject_Z h).
    { rewrite Eh, inject_Z_mult. field. }
    unfold representable. rewrite (round64_proper _ _ E), E.
    apply integer_representable. lia.
Qed.

(** Rounding commutes with the change of sign. *)
Lemma round64_opp (q : Q) : round64 (- q) == - round64 q.
Proof.
  unfold round64. rewrite Qred_opp.
  destruct (Qred q) as [[| n | n] d]; cbn [Qopp Qnum Qden Z.opp].
  - reflexivity.
  - reflexivity.
  - now rewrite Qopp_involutive.
Qed.

Lemma representable_opp (q : Q) : representable q -> representable (- q).
Proof.
  unfold representable. intros H. now rewrite round64_opp, H.
Qed.

Lemma representable_proper (a c : Q) :
  a == c -> representable c -> representable a.
Proof.
  unfold representable. intros E H.
  rewrite (round64_proper a c E), H. symmetry. exact E.
Qed.

(** Rewrite the argument of a rounding by an equal number that is one of
    binary64. *)
Lemma round64_exact (a c : Q) : a == c -> representable c -> round64 a == c.
Proof.
  intros E H. rewrite (round64_proper a c E). exact H.
Qed.

(** C8, as amended: for every ordered numeric domain [from <= to] inside
    the numeric outer domain, [oFrom <= from] and [to <= oTo], whose bounds,
    width [to - from], half width and midpoint [from + (to - from) / 2] are
    numbers of binary64, scaling by the factor [1] in the arithmetic of the
    code returns a domain equal to the domain scaled. *)
Theorem scale_factor_one_unrounded (from to oFrom oTo : Q) :
  oFrom <= from -> from <= to -> to <= oTo ->
  representable from -> representable to ->
  representable (to - from) ->
  representable ((to - from) / 2) ->
  representable (from + (to - from) / 2) ->
  exists lo hi,
    Double.scale (Num from, Num to) (Num oFrom, Num oTo) 1 = (Num lo, Num hi) /\
    lo == from /\ hi == to.
Proof.
  intros Hlo Hord Hhi Rfrom Rto Rw Rh Rm.
  unfold Double.scale, Rounded.scale, getMaxValue, getMinValue, containsDates.
  cbn [toNumber fst snd isDate orb].
  eexists. eexists. split; [reflexivity |].
  assert (E1 : round64 (from - to) == - (to - from)).
  { apply round64_exact; [lra | now apply representable_opp]. }
  assert (Er : Qabs (round64 (from - to)) == to - from).
  { rewrite E1, Qabs_opp. apply Qabs_pos. lra. }
  set (range := Qabs (round64 (from - to))) in *. clearbody range.
  assert (E2 : round64 (range / 2) == (to - from) / 2).
  { apply round64_exact; [now rewrite Er | exact Rh]. }
  assert (E3 : round64 (from + round64 (range / 2)) == from + (to - from) / 2).
  { apply round64_exact; [now rewrite E2 | exact Rm]. }
  assert (E4 : round64 (range * 1) == to - from).
  { apply round64_exact; [rewrite Er; ring | exact Rw]. }
  assert (E5 : round64 (round64 (range * 1) / 2) == (to - from) / 2).
  { apply round64_exact; [now rewrite E4 | exact Rh]. }
  set (midpoint := round64 (from + round64 (range / 2))) in *. clearbody midpoint.
  set (newRange := round64 (round64 (range * 1) / 2)) in *. clearbody newRange.
  assert (E6 : round64 (midpoint - newRange) == from).
  { apply round64_exact; [rewrite E3, E5; field | exact Rfrom]. }
  assert (E7 : round64 (midpoint + newRange) == to).
  { apply round64_exact; [rewrite E3, E5; field | exact Rto]. }
  split.
  - rewrite E6. apply Q.max_l. exact Hlo.
  - rewrite E7. apply Q.min_l. exact Hhi.
Qed.

Lemma scale_factor_one_unrounded_witness :
  exists lo hi,
    Double.scale (Num 0.5, Num 3.25) (Num 0, Num 100.75) 1 = (Num lo, Num hi) /\
    lo == 0.5 /\ hi == 3.25.
Proof.
  apply (scale_factor_one_unrounded 0.5 3.25 0 100.75);
    try lra; vm_compute; reflexivity.
Defined.

(** The hypotheses of the amended C8 on the numbers hold of all integer
    bounds of magnitude up to [2^52]. *)
Lemma integer_domain_unrounded (a b : Z) :
  (- 2 ^ 52 <= a)%Z -> (a <= b)%Z -> (b <= 2 ^ 52)%Z ->
  inject_Z a <= inject_Z b /\
  representable (inject_Z a) /\ representable (inject_Z b) /\
  representable (inject_Z b - inject_Z a) /\
  representable ((inject_Z b - inject_Z a) / 2) /\
  representable (inject_Z a + (inject_Z b - inject_Z a) / 2).
Proof.
  intros Ha Hab Hb.
  assert (Ew : inject_Z (b - a) == inject_Z b - inject_Z a).
  { unfold Z.sub. rewrite inject_Z_plus, inject_Z_opp. reflexivity. }
  split; [| split; [| split; [| split; [| split]]]].
  - rewrite <- Zle_Qle. exact Hab.
  - apply integer_representable. lia.
  - apply integer_representable. lia.
  - apply (representable_proper _ (inject_Z (b - a))); [now symmetry |].
    apply integer_representable. lia.
  - apply (representable_proper _ (inject_Z (b - a) / 2)).
    + now rewrite Ew.
    + apply half_integer_representable. lia.
  - apply (representable_proper _ (inject_Z (a + b) / 2)).
    + rewrite inject_Z_plus. field.
    + apply half_integer_representable. lia.
Qed.

(** C8, as stated, fails: in the arithmetic of the code the factor [1]
    takes [[0.1, 0.3]] inside [[0, 1]] to a domain whose lower bound is
    [0.10000000000000002]. *)
Lemma scale_factor_one_rounds :
  0 <= literal 0.1 /\ literal 0.1 <= literal 0.3 /\ literal 0.3 <= 1 /\
  Double.scale (Num (literal 0.1), Num (literal 0.3)) (Num 0, Num 1) 1
  = (Num (Qmax (literal 0.10000000000000002) 0), Num (Qmin (literal 0.3) 1)) /\
  ~ (toNumber (fst (Double.scale (Num (literal 0.1), Num (literal 0.3))
                                 (Num 0, Num 1) 1))
     == literal 0.1).
Proof.
  repeat split; vm_compute; discriminate.
Qed.

(** A date-typed domain scaled inside a numeric one comes back as numbers,
    and bounds that are dates come back as dates of whole milliseconds;
    the amended C8 speaks of numeric domains. *)
Lemma scale_of_dates :
  containsDates (Double.scale (Date 10, Date 20) (Num 0, Num 100) 1) = false /\
  Double.scale (Date 10, Date 21) (Date 0, Date 100) 1 = (Date 10, Date 21) /\
  Double.scale (Num 10.5, Num 20.75) (Date 0, Date 100) 1 = (Date 10, Date 20).
Proof.
  repeat split; vm_compute; reflexivity.
Qed.

(** The size that C1 speaks of is kept only up to rounding: in the
    arithmetic of the code the box [[10.1, 20.2]] before the outer box
    [[50, 400]] is moved to [[50, 60.1]], of width [10.100000000000001]
    for [10.1], though it sticks out on one side only. *)
Lemma constrainBox_width_rounds :
  let B := mkBox (literal 10.1) (literal 20.2) 0 10 in
  let O := mkBox 50 400 0 10 in
  ~ exceedsBothX B O /\ ~ exceedsBothY B O /\
  Double.constrainBox B O
  = mkBox (Qmax (literal 10.1) 50)
          (round64 (50 + Qabs (round64 (literal 20.2 - literal 10.1))))
          (Qmax 0 0) (Qmin 10 10) /\
  x1 (Double.constrainBox B O) == 50 /\
  x2 (Double.constrainBox B O) == literal 60.1 /\
  round64 (literal 60.1 - 50) == literal 10.100000000000001 /\
  round64 (literal 20.2 - literal 10.1) == literal 10.1 /\
  ~ (literal 60.1 - 50 == literal 20.2 - literal 10.1) /\
  ~ (literal 10.100000000000001 == literal 10.1).
Proof.
  cbv zeta.
  split; [intros [H _]; vm_compute in H; discriminate H |].
  split; [intros [H _]; vm_compute in H; discriminate H |].
  repeat split; try (vm_compute; discriminate);
    try (vm_compute; reflexivity).
Qed.

(** C6, as stated, fails: in the arithmetic of the code, panning
    [[10.1, 20.2]] by [95.5] inside [[0, 100]] leaves on the upper side and
    returns [[89.9, 100]], whose width [10.099999999999994] is not the width
    [10.1] of the current domain. *)
Lemma pan_width_rounds :
  literal 10.1 <= literal 20.2 /\
  100 < literal 20.2 + literal 95.5 /\ 0 <= literal 10.1 + literal 95.5 /\
  Double.pan (Num (literal 10.1), Num (literal 20.2)) (Num 0, Num 100)
             (literal 95.5)
  = (Num (round64 (100 - round64 (literal 20.2 - literal 10.1))), Num 100) /\
  round64 (100 - round64 (literal 20.2 - literal 10.1)) == literal 89.9 /\
  round64 (100 - literal 89.9) == literal 10.099999999999994 /\
  round64 (literal 20.2 - literal 10.1) == literal 10.1 /\
  ~ (100 - literal 89.9 == literal 20.2 - literal 10.1) /\
  ~ (literal 10.099999999999994 == literal 10.1).
Proof.
  repeat split; try (vm_compute; discriminate);
    try (vm_compute; reflexivity).
Qed.

(** * Further properties of the helpers *)

(** ** [pan] *)

Lemma truncate_proper (a c : Q) : a == c -> truncate a = truncate c.
Proof.
  intros E.
  assert (H1 : (truncate a <= truncate c)%Z) by (apply truncate_monotone; lra).
  assert (H2 : (truncate c <= truncate a)%Z) by (apply truncate_monotone; lra).
  lia.
Qed.

(** X3: panning by [0] a domain that lies within the original domain
    returns its bounds, provided that, when a date is involved, the bounds
    are whole numbers of milliseconds. *)
Theorem pan_by_zero (D O : Domain) :
  domainWithin D O ->
  (containsDates D || containsDates O = true ->
   whole (toNumber (fst D)) /\ whole (toNumber (snd D))) ->
  sameBounds (pan D O 0) D.
Proof.
  intros [Hlo Hhi] Hwhole. unfold sameBounds.
  destruct (pan_branches D O 0)
    as [(H1 & H2 & E) | [(H1 & E) | [(H1 & H2 & E) | (H1 & H2 & _ & E)]]];
    try lra; rewrite E; unfold wrapDates;
    destruct (containsDates D || containsDates O);
    try (destruct (Hwhole eq_refl) as [W1 W2]; unfold whole in W1, W2);
    cbn [asDates newDate toNumber fst snd].
  - rewrite (truncate_proper (toNumber (fst D) + 0) (toNumber (fst D))) by lra.
    rewrite (truncate_proper (toNumber (snd D) + 0) (toNumber (snd D))) by lra.
    split; assumption.
  - split; lra.
  - split; assumption.
  - split; reflexivity.
Qed.

Lemma pan_by_zero_witness :
  sameBounds (pan (Num 0.5, Num 20) (Num 0.5, Num 100) 0) (Num 0.5, Num 20) /\
  sameBounds (pan (Num 3, Num 20) (Date 0, Date 100) 0) (Num 3, Num 20).
Proof.
  split.
  - apply (pan_by_zero (Num 0.5, Num 20) (Num 0.5, Num 100)).
    + split; concrete.
    + intros H. discriminate H.
  - apply (pan_by_zero (Num 3, Num 20) (Date 0, Date 100)).
    + split; concrete.
    + intros _. split; reflexivity.
Defined.

(** X4: both bounds returned by [pan] are dates exactly when the current
    or the original domain holds a date; otherwise both are numbers. *)
Theorem pan_date_typed (D O : Domain) (d : Q) :
  isDate (fst (pan D O d)) = containsDates D || containsDates O /\
  isDate (snd (pan D O d)) = containsDates D || containsDates O.
Proof.
  unfold pan.
  destruct (containsDates D || containsDates O) eqn:E.
  - split; reflexivity.
  - apply orb_false_iff in E. destruct E as [ED _].
    unfold containsDates in ED. apply orb_false_iff in ED.
    destruct ED as [E1 E2].
    repeat match goal with |- context [if ?c then _ else _] => destruct c end;
      cbn [fst snd isDate]; auto.
Qed.

(** ** [scale] *)

(** X5: [scale] is monotone in the factor: with the same domains, a larger
    factor returns a domain that contains the one returned for a smaller
    factor. *)
Theorem scale_monotone_in_factor (D O : Domain) (f g : Q) :
  f <= g ->
  domainWithin (scale D O f) (scale D O g).
Proof.
  intros Hfg. unfold domainWithin.
  destruct (scale_bounds D O f) as [-> ->].
  destruct (scale_bounds D O g) as [-> ->].
  pose proof (Qabs_nonneg (toNumber (fst D) - toNumber (snd D))) as Hr.
  set (r := Qabs (toNumber (fst D) - toNumber (snd D))) in *. clearbody r.
  assert (Hm : r * f <= r * g) by nra.
  set (rf := r * f) in *. set (rg := r * g) in *. clearbody rf rg.
  split;
    match goal with
    | |- (if ?c then inject_Z (truncate ?a) else ?a)
         <= (if ?c then inject_Z (truncate ?b) else ?b) =>
        let H := fresh "H" in
        assert (H : a <= b) by minmax_lra;
        destruct c; [rewrite <- Zle_Qle; now apply truncate_monotone | exact H]
    end.
Qed.

Lemma scale_monotone_in_factor_witness :
  domainWithin (scale (Num 40, Num 60) (Num 0, Num 100) (1 # 2))
               (scale (Num 40, Num 60) (Num 0, Num 100) 2).
Proof.
  apply (scale_monotone_in_factor (Num 40, Num 60) (Num 0, Num 100) (1 # 2) 2).
  lra.
Defined.

(** ** [withinBounds] *)

(** The amount by which [withinBounds] widens the box on each side. *)
Lemma withinBounds_padded (p : Point) (b : Box) (q : Q) :
  withinBounds p b (Some q) = true <->
  Qmin (x1 b) (x2 b) <= x p + q / 2 /\ x p - q / 2 <= Qmax (x1 b) (x2 b) /\
  Qmin (y1 b) (y2 b) <= y p + q / 2 /\ y p - q / 2 <= Qmax (y1 b) (y2 b).
Proof.
  unfold withinBounds, truthy_opt, truthy.
  destruct (Qeq_bool q 0) eqn:E; cbn [negb].
  - apply Qeq_bool_iff in E.
    assert (Eh : q / 2 == 0) by (halves; lra).
    split.
    + cmp_cases; intros Hin; try discriminate. repeat split; lra.
    + intros (Hx1 & Hx2 & Hy1 & Hy2). cmp_cases; try lra; reflexivity.
  - split.
    + cmp_cases; intros Hin; try discriminate. repeat split; lra.
    + intros (Hx1 & Hx2 & Hy1 & Hy2). cmp_cases; try lra; reflexivity.
Qed.

Lemma bool_eq_iff (a c : bool) : (a = true <-> c = true) -> a = c.
Proof. destruct a, c; intuition congruence. Qed.

(** X9: [withinBounds] does not depend on the order of the corners:
    exchanging [x1] with [x2], or [y1] with [y2], gives the same answer for
    every point and padding. *)
Theorem withinBounds_corner_order (p : Point) (b : Box) (padding : option Q) :
  withinBounds p (mkBox (x2 b) (x1 b) (y1 b) (y2 b)) padding =
    withinBounds p b padding /\
  withinBounds p (mkBox (x1 b) (x2 b) (y2 b) (y1 b)) padding =
    withinBounds p b padding.
Proof.
  pose proof (Q.min_comm (x1 b) (x2 b)) as Hx.
  pose proof (Q.max_comm (x1 b) (x2 b)) as Hx'.
  pose proof (Q.min_comm (y1 b) (y2 b)) as Hy.
  pose proof (Q.max_comm (y1 b) (y2 b)) as Hy'.
  destruct padding as [q |]; split; apply bool_eq_iff;
    rewrite ?withinBounds_padded, ?withinBounds_unpadded; cbn [x1 x2 y1 y2];
    intuition lra.
Qed.

(** X10: a larger padding accepts every point that a smaller one accepts;
    in particular a point within the box without padding is within it with
    any padding that is not negative. *)
Theorem withinBounds_padding_monotone (p : Point) (b : Box) (q r : Q) :
  q <= r ->
  withinBounds p b (Some q) = true ->
  withinBounds p b (Some r) = true.
Proof.
  intros Hqr. rewrite !withinBounds_padded.
  intros (Hx1 & Hx2 & Hy1 & Hy2). halves. repeat split; lra.
Qed.

Lemma withinBounds_padding_monotone_witness :
  withinBounds (mkPoint 11 5) (mkBox 0 10 0 10) (Some 4) = true.
Proof.
  apply (withinBounds_padding_monotone (mkPoint 11 5) (mkBox 0 10 0 10) 2 4).
  - lra.
  - reflexivity.
Defined.

(** ** [getActiveHandles] *)

(** X11: [getActiveHandles] never returns an empty array.  Its result is
    the number [0] exactly when the point is within none of the four handle
    rectangles; otherwise it is an array that is not empty and that holds
    exactly the names of the handles the point is within. *)
Theorem getActiveHandles_result (p : Point) (props : Props) (b : Box) :
  (getActiveHandles p props b = Zero <->
   forall opt, withinBounds p (handle (getHandles props b) opt) None = false) /\
  (forall names, getActiveHandles p props b = Active names ->
     names <> [] /\
     forall opt, In opt names <->
                 withinBounds p (handle (getHandles props b) opt) None = true).
Proof.
  rewrite getActiveHandles_filter.
  set (within := fun opt => withinBounds p (handle (getHandles props b) opt) None).
  change (forall opt, withinBounds p (handle (getHandles props b) opt) None = false)
    with (forall opt, within opt = false).
  assert (Hf : forall opt,
             In opt (filter within [Top; Bottom; Left; Right]) <-> within opt = true).
  { intros opt. rewrite filter_In. split; [tauto |].
    intros H. split; [destruct opt; cbn; tauto | assumption]. }
  destruct (filter within [Top; Bottom; Left; Right]) as [| n l] eqn:E.
  - split.
    + split; [| reflexivity]. intros _ opt.
      destruct (within opt) eqn:Eo; [| reflexivity].
      apply Hf in Eo. destruct Eo.
    + intros names H. discriminate H.
  - split.
    + split; [discriminate |]. intros Hall.
      assert (Hn : within n = true) by (apply Hf; now left).
      rewrite Hall in Hn. discriminate Hn.
    + intros names H. injection H as <-. split; [discriminate | exact Hf].
Qed.

(** X13: on a box no wider and no higher than half the handle width, the
    four handle rectangles overlap at every corner: [getActiveHandles]
    returns all four names there. *)
Theorem getActiveHandles_small_box (props : Props) (b : Box) :
  0 < handleWidth props ->
  Qabs (x2 b - x1 b) <= handleWidth props / 2 ->
  Qabs (y2 b - y1 b) <= handleWidth props / 2 ->
  getActiveHandles (mkPoint (x1 b) (y1 b)) props b = Active [Top; Bottom; Left; Right] /\
  getActiveHandles (mkPoint (x1 b) (y2 b)) props b = Active [Top; Bottom; Left; Right] /\
  getActiveHandles (mkPoint (x2 b) (y1 b)) props b = Active [Top; Bottom; Left; Right] /\
  getActiveHandles (mkPoint (x2 b) (y2 b)) props b = Active [Top; Bottom; Left; Right].
Proof.
  intros Hpos Hw Hh.
  destruct (box_extent b) as [Ew Eh].
  rewrite <- Ew in Hw. rewrite <- Eh in Hh.
  pose proof (Q.le_min_l (x1 b) (x2 b)). pose proof (Q.le_max_l (x1 b) (x2 b)).
  pose proof (Q.le_min_l (y1 b) (y2 b)). pose proof (Q.le_max_l (y1 b) (y2 b)).
  pose proof (Q.le_min_r (x1 b) (x2 b)). pose proof (Q.le_max_r (x1 b) (x2 b)).
  pose proof (Q.le_min_r (y1 b) (y2 b)). pose proof (Q.le_max_r (y1 b) (y2 b)).
  repeat split;
    rewrite getActiveHandles_filter; cbn [filter];
    settle_hits; reflexivity.
Qed.

Lemma getActiveHandles_small_box_witness :
  getActiveHandles (mkPoint 7 7)
    (mkProps 10 None
             (mkScale (mkAxisScale toNumber (Num 0, Num 1) (0, 1))
                      (mkAxisScale toNumber (Num 0, Num 1) (0, 1)))
             None None None None None None)
    (mkBox 7 7 7 7) = Active [Top; Bottom; Left; Right].
Proof.
  apply (getActiveHandles_small_box
           (mkProps 10 None
                    (mkScale (mkAxisScale toNumber (Num 0, Num 1) (0, 1))
                             (mkAxisScale toNumber (Num 0, Num 1) (0, 1)))
                    None None None None None None)
           (mkBox 7 7 7 7)); [reflexivity | vm_compute; discriminate ..].
Defined.

(** Settle a numeric side condition on concrete boxes. *)
Ltac box_facts :=
  unfold ordered, boxWithin; cbn [x1 x2 y1 y2]; repeat split; lra.

(** ** [getResizeMutation] and [getSelectionMutation] *)

(** X14: of a list of handles only the last one counts: the result is the
    one for that handle alone, a complete box in which the edge named by
    the handle is [x2] (or [y2]), the opposite edge is [x1] (or [y1]), and
    the coordinates of the other axis are those of the input. *)
Theorem getResizeMutation_only_last
        (box : Box) (handles : list HandleName) (name : HandleName) :
  getResizeMutation box (handles ++ [name]) = getResizeMutation box [name] /\
  exists r : Box,
    getResizeMutation box (handles ++ [name]) = ofBox r /\
    match name with
    | Left => x2 r <= x1 r /\ y1 r = y1 box /\ y2 r = y2 box
    | Right => x1 r <= x2 r /\ y1 r = y1 box /\ y2 r = y2 box
    | Top => y2 r <= y1 r /\ x1 r = x1 box /\ x2 r = x2 box
    | Bottom => y1 r <= y2 r /\ x1 r = x1 box /\ x2 r = x2 box
    end.
Proof.
  rewrite getResizeMutation_last. split; [reflexivity |].
  exists (mutations box name). split; [reflexivity |].
  destruct name; cbn [mutations x1 x2 y1 y2];
    repeat split; minmax_lra.
Qed.

(** X15: the pointer is within the selection that [getSelectionMutation]
    starts at it: always when no dimension is set, and, with a dimension,
    whenever the pointer is within the box that supplies the other axis. *)
Theorem getSelectionMutation_holds_point
        (point : Point) (box : Box) (dimension : option Dimension) :
  withinBounds point (getSelectionMutation point box None) None = true /\
  (withinBounds point box None = true ->
   withinBounds point (getSelectionMutation point box dimension) None = true).
Proof.
  rewrite !withinBounds_unpadded. split.
  - cbn [getSelectionMutation notX notY x1 x2 y1 y2].
    repeat split; minmax_lra.
  - intros (Hx1 & Hx2 & Hy1 & Hy2).
    destruct dimension as [[|] |];
      cbn [getSelectionMutation notX notY x1 x2 y1 y2];
      repeat split; try assumption; minmax_lra.
Qed.

Lemma getSelectionMutation_holds_point_witness :
  withinBounds (mkPoint 3 4)
               (getSelectionMutation (mkPoint 3 4) (mkBox 0 10 0 10) (Some DimX))
               None = true.
Proof.
  apply (getSelectionMutation_holds_point
           (mkPoint 3 4) (mkBox 0 10 0 10) (Some DimX)).
  reflexivity.
Defined.

(** ** [constrainBox] *)

(** X17: a box whose edges lie between those of the outer box comes back
    with the same coordinates, whatever the order of its corners. *)
Theorem constrainBox_fixes_inner (B O : Box) :
  boxWithin B O -> sameBox (constrainBox B O) B.
Proof.
  intros (Hx1 & Hx2 & Hy1 & Hy2).
  unfold sameBox, constrainBox. cbn [x1 x2 y1 y2].
  cmp_cases; try lra.
  rewrite (Qmax_left _ _ Hx1), (Qmin_left _ _ Hx2),
    (Qmax_left _ _ Hy1), (Qmin_left _ _ Hy2).
  repeat split; reflexivity.
Qed.

Lemma constrainBox_fixes_inner_witness :
  sameBox (constrainBox (mkBox 12 3 4 5) (mkBox 0 20 0 20)) (mkBox 12 3 4 5).
Proof.
  apply (constrainBox_fixes_inner (mkBox 12 3 4 5) (mkBox 0 20 0 20)).
  box_facts.
Defined.

(** ** [getDomainBox] and [panBox] *)

Section BoxOfDomain.

Variable getDomainCoordinates : Scale -> DomainPair -> Coordinates.

(** X18: [getDomainBox] throws exactly when neither a full domain is passed
    nor [props.domain] is set; every box it returns is ordered. *)
Theorem getDomainBox_result
        (props : Props) (fullDomain selectedDomain : option DomainPair) :
  (getDomainBox getDomainCoordinates props fullDomain selectedDomain = None <->
   fullDomain = None /\ domain props = None) /\
  (forall r,
      getDomainBox getDomainCoordinates props fullDomain selectedDomain = Some r ->
      ordered r).
Proof.
  unfold getDomainBox, orElse.
  destruct fullDomain as [fd |]; [| destruct (domain props) as [pd |]].
  - split; [split; [discriminate | intros [H _]; discriminate H] |].
    intros r H. injection H as <-. unfold ordered. cbn [x1 x2 y1 y2].
    destruct (notY (dimension props)), (notX (dimension props));
      split; minmax_lra.
  - split; [split; [discriminate | intros [_ H]; discriminate H] |].
    intros r H. injection H as <-. unfold ordered. cbn [x1 x2 y1 y2].
    destruct (notY (dimension props)), (notX (dimension props));
      split; minmax_lra.
  - split; [split; [auto | reflexivity] |]. intros r H. discriminate H.
Qed.

(** X19: the [dimension] prop decides which domain each axis of the box
    is read from.  With ["x"] the y edges are those of the full domain,
    whatever the selected domain; with ["y"] the x edges are; with no
    dimension the box is that of the selected domain, whatever the full
    domain. *)
Theorem getDomainBox_dimension
        (props : Props) (full full' selected selected' : DomainPair) :
  (dimension props = Some DimX ->
   forall r r',
     getDomainBox getDomainCoordinates props (Some full) (Some selected) = Some r ->
     getDomainBox getDomainCoordinates props (Some full) (Some selected') = Some r' ->
     y1 r = y1 r' /\ y2 r = y2 r') /\
  (dimension props = Some DimY ->
   forall r r',
     getDomainBox getDomainCoordinates props (Some full) (Some selected) = Some r ->
     getDomainBox getDomainCoordinates props (Some full) (Some selected') = Some r' ->
     x1 r = x1 r' /\ x2 r = x2 r') /\
  (dimension props = None ->
   getDomainBox getDomainCoordinates props (Some full) (Some selected) =
   getDomainBox getDomainCoordinates props (Some full') (Some selected)).
Proof.
  unfold getDomainBox, orElse.
  split; [| split]; intros Hd; rewrite Hd; cbn [notX notY].
  - intros r r' H H'. injection H as <-. injection H' as <-.
    split; reflexivity.
  - intros r r' H H'. injection H as <-. injection H' as <-.
    split; reflexivity.
  - reflexivity.
Qed.

(** X20: whatever the pointer, the start point and the dimension, the box
    returned by [panBox] is ordered, [x1 <= x2] and [y1 <= y2]. *)
Theorem panBox_ordered (props : Props) (point : Point) (r : Box) :
  panBox getDomainCoordinates props point = Some r -> ordered r.
Proof.
  unfold panBox.
  destruct (boxOfProps getDomainCoordinates props) as [b |]; [| discriminate].
  intros H. injection H as <-.
  unfold ordered. cbn [x1 x2 y1 y2].
  destruct (notY (dimension props)), (notX (dimension props));
    split; minmax_lra.
Qed.

(** X21: with the pointer at the recorded start point, [panBox] returns the
    box it was given, put in order. *)
Theorem panBox_at_start (props : Props) (point : Point) (b : Box) :
  boxOfProps getDomainCoordinates props = Some b ->
  startX props = Some (x point) ->
  startY props = Some (y point) ->
  exists r : Box,
    panBox getDomainCoordinates props point = Some r /\
    sameBox r (mkBox (Qmin (x1 b) (x2 b)) (Qmax (x1 b) (x2 b))
                     (Qmin (y1 b) (y2 b)) (Qmax (y1 b) (y2 b))).
Proof.
  intros Hb Hx Hy. unfold panBox. rewrite Hb, Hx, Hy.
  eexists. split; [reflexivity |].
  unfold sameBox. cbn [x1 x2 y1 y2].
  destruct (notY (dimension props)), (notX (dimension props)),
    (truthy (x point)), (truthy (y point));
    repeat split; lra.
Qed.

(** X22: a start coordinate of [0] counts as no start point.  With no
    dimension excluding the x axis, a start [startX] that is not [0] moves
    the x edges by [x - startX], and a start of [0] leaves them where they
    are, wherever the pointer is. *)
Theorem panBox_start_at_zero (props : Props) (point : Point) (b : Box) (s : Q) :
  boxOfProps getDomainCoordinates props = Some b ->
  notY (dimension props) = true ->
  startX props = Some s ->
  exists r : Box,
    panBox getDomainCoordinates props point = Some r /\
    (~ s == 0 ->
     x1 r == Qmin (x1 b) (x2 b) - (s - x point) /\
     x2 r == Qmax (x1 b) (x2 b) - (s - x point)) /\
    (s == 0 ->
     x1 r == Qmin (x1 b) (x2 b) /\ x2 r == Qmax (x1 b) (x2 b)).
Proof.
  intros Hb Hd Hs. unfold panBox. rewrite Hb, Hd, Hs.
  eexists. split; [reflexivity |]. cbn [x1 x2 y1 y2].
  unfold truthy. destruct (Qeq_bool s 0) eqn:E; cbn [negb].
  - apply Qeq_bool_iff in E. split; [intros Hn; contradiction |].
    intros _. split; lra.
  - apply Qeq_bool_neq in E. split; [intros _; split; reflexivity |].
    intros H0. contradiction.
Qed.

(** X23: an explicit box whose [x1] is [0] is not used: [panBox] returns
    what it returns for the props without the box. *)
Theorem panBox_explicit_box_at_zero (props : Props) (point : Point) (b : Box) :
  box props = Some b ->
  x1 b == 0 ->
  panBox getDomainCoordinates props point =
  panBox getDomainCoordinates
         (mkProps (handleWidth props) (dimension props) (pscale props)
                  (domain props) (fullDomain props) (selectedDomain props)
                  (startX props) (startY props) None)
         point.
Proof.
  intros Hb H0.
  assert (Ht : truthy (x1 b) = false).
  { unfold truthy. apply Qeq_bool_iff in H0. now rewrite H0. }
  unfold panBox, boxOfProps. rewrite Hb, Ht. reflexivity.
Qed.

End BoxOfDomain.

Lemma getDomainBox_result_witness :
  getDomainBox scaledCoordinates (domainProps None None None None) None None = None /\
  ordered (mkBox 2 8 3 5).
Proof.
  destruct (getDomainBox_result scaledCoordinates
              (domainProps None None None None) None None) as [H _].
  split; [apply H; split; reflexivity |].
  destruct (getDomainBox_result scaledCoordinates
              (domainProps None None None None)
              (Some (mkDomainPair (Num 8, Num 2) (Num 3, Num 5))) None) as [_ H'].
  apply H'. reflexivity.
Defined.

Lemma getDomainBox_dimension_witness :
  exists r r',
    getDomainBox scaledCoordinates (domainProps (Some DimX) None None None)
      (Some (mkDomainPair (Num 0, Num 10) (Num 0, Num 10)))
      (Some (mkDomainPair (Num 2, Num 3) (Num 4, Num 5))) = Some r /\
    getDomainBox scaledCoordinates (domainProps (Some DimX) None None None)
      (Some (mkDomainPair (Num 0, Num 10) (Num 0, Num 10)))
      (Some (mkDomainPair (Num 6, Num 7) (Num 8, Num 9))) = Some r' /\
    y1 r = y1 r' /\ y2 r = y2 r'.
Proof.
  eexists. eexists. split; [reflexivity |]. split; [reflexivity |].
  apply (proj1 (getDomainBox_dimension scaledCoordinates
                  (domainProps (Some DimX) None None None)
                  (mkDomainPair (Num 0, Num 10) (Num 0, Num 10))
                  (mkDomainPair (Num 0, Num 10) (Num 0, Num 10))
                  (mkDomainPair (Num 2, Num 3) (Num 4, Num 5))
                  (mkDomainPair (Num 6, Num 7) (Num 8, Num 9)))
               eq_refl _ _ eq_refl eq_refl).
Defined.

Lemma panBox_ordered_witness :
  ordered (mkBox (2 - (5 - 3)) (12 - (5 - 3)) (0 - (5 - 4)) (10 - (5 - 4))).
Proof.
  apply (panBox_ordered scaledCoordinates
           (boxProps None (Some 5) (Some 5) (Some (mkBox 12 2 0 10)))
           (mkPoint 3 4)).
  reflexivity.
Defined.

Lemma panBox_at_start_witness :
  exists r : Box,
    panBox scaledCoordinates
           (boxProps None (Some 3) (Some 4) (Some (mkBox 12 2 0 10)))
           (mkPoint 3 4) = Some r /\
    sameBox r (mkBox 2 12 0 10).
Proof.
  apply (panBox_at_start scaledCoordinates
           (boxProps None (Some 3) (Some 4) (Some (mkBox 12 2 0 10)))
           (mkPoint 3 4) (mkBox 12 2 0 10)); reflexivity.
Defined.

Lemma panBox_start_at_zero_witness :
  exists r : Box,
    panBox scaledCoordinates
           (boxProps None (Some 0) (Some 5) (Some (mkBox 12 2 0 10)))
           (mkPoint 3 4) = Some r /\
    x1 r == 2 /\ x2 r == 12.
Proof.
  destruct (panBox_start_at_zero scaledCoordinates
              (boxProps None (Some 0) (Some 5) (Some (mkBox 12 2 0 10)))
              (mkPoint 3 4) (mkBox 12 2 0 10) 0)
    as (r & Hr & _ & H0); try reflexivity.
  exists r. split; [exact Hr |]. apply H0. reflexivity.
Defined.

Lemma panBox_explicit_box_at_zero_witness :
  panBox scaledCoordinates
         (mkProps 10 None unitScale
                  (Some (mkDomainPair (Num 1, Num 2) (Num 3, Num 4)))
                  None None (Some 5) (Some 5) (Some (mkBox 0 20 30 40)))
         (mkPoint 5 5) = Some (mkBox (1 - (5 - 5)) (2 - (5 - 5)) (3 - (5 - 5)) (4 - (5 - 5))).
Proof.
  rewrite (panBox_explicit_box_at_zero scaledCoordinates
             (mkProps 10 None unitScale
                      (Some (mkDomainPair (Num 1, Num 2) (Num 3, Num 4)))
                      None None (Some 5) (Some 5) (Some (mkBox 0 20 30 40)))
             (mkPoint 5 5) (mkBox 0 20 30 40));
    reflexivity.
Defined.

(** ** [getDomainScale] *)

Lemma divide_some (a b : Q) :
  ~ b == 0 -> divide a b = Some (a / b).
Proof.
  intros Hb. unfold divide.
  destruct (Qeq_bool b 0) eqn:E; [| reflexivity].
  apply Qeq_bool_iff in E. contradiction.
Qed.

Lemma divide_none (a b : Q) :
  divide a b = None <-> b == 0.
Proof.
  unfold divide. destruct (Qeq_bool b 0) eqn:E.
  - apply Qeq_bool_iff in E. tauto.
  - apply Qeq_bool_neq in E. split; [discriminate | contradiction].
Qed.

(** X25: [getDomainScale] is finite exactly when the x domain is not of
    width [0]; it is then not negative on an ordered domain and not
    positive on an inverted one. *)
Theorem getDomainScale_sign (domain : DomainPair) (scale : Scale) :
  let from := toNumber (fst (dx domain)) in
  let to := toNumber (snd (dx domain)) in
  (getDomainScale domain scale = None <-> to == from) /\
  (forall s, getDomainScale domain scale = Some s ->
             (from < to -> 0 <= s) /\ (to < from -> s <= 0)).
Proof.
  intros from to.
  set (plottableWidth := Qabs (fst (srange (sx scale)) - snd (srange (sx scale)))).
  assert (E : getDomainScale domain scale = divide plottableWidth (to - from)).
  { unfold getDomainScale. subst from to plottableWidth.
    destruct (dx domain) as [f t]. reflexivity. }
  rewrite E. split.
  - rewrite divide_none. split; intros H; lra.
  - intros s Hs.
    destruct (Qeq_dec (to - from) 0) as [H0 | H0].
    + apply (proj2 (divide_none plottableWidth (to - from))) in H0.
      rewrite H0 in Hs. discriminate Hs.
    + rewrite (divide_some _ _ H0) in Hs. injection Hs as <-.
      pose proof (Qabs_nonneg (fst (srange (sx scale)) - snd (srange (sx scale)))) as Hp.
      fold plottableWidth in Hp.
      assert (Hm : plottableWidth / (to - from) * (to - from) == plottableWidth)
        by (field; exact H0).
      set (q := plottableWidth / (to - from)) in *. clearbody q.
      split; intros Ho; nra.
Qed.

Lemma getDomainScale_sign_witness :
  getDomainScale (mkDomainPair (Num 3, Num 3) (Num 0, Num 1)) unitScale = None /\
  exists s,
    getDomainScale (mkDomainPair (Num 10, Num 0) (Num 0, Num 1)) unitScale = Some s /\
    s <= 0.
Proof.
  split.
  - apply (proj1 (getDomainScale_sign
                    (mkDomainPair (Num 3, Num 3) (Num 0, Num 1)) unitScale)).
    reflexivity.
  - eexists. split; [reflexivity |].
    destruct (proj2 (getDomainScale_sign
                       (mkDomainPair (Num 10, Num 0) (Num 0, Num 1)) unitScale)
                    _ eq_refl) as [_ Hneg].
    apply Hneg. reflexivity.
Defined.

(** ** The zoom component *)

Lemma Qdiv_nonzero (a b : Q) : ~ a == 0 -> ~ b == 0 -> ~ a / b == 0.
Proof.
  intros Ha Hb H. apply Ha.
  assert (E : a == a / b * b) by (field; exact Hb).
  rewrite H in E. lra.
Qed.

(** The seven parts of the invariant, one goal each. *)
Ltac split_invariant :=
  unfold zoomInvariant;
  refine (conj _ (conj _ (conj _ (conj _ (conj _ (conj _ _)))))).

Lemma run_app (O : Domain) (l1 l2 : list VictoryZoom.Event) (this : VictoryZoom.Instance) :
  VictoryZoom.run this O (l1 ++ l2) =
  VictoryZoom.bind (VictoryZoom.run this O l1)
                   (fun next => VictoryZoom.run next O l2).
Proof.
  revert this. induction l1 as [| e rest IH]; intros this; [reflexivity |].
  cbn [VictoryZoom.run app].
  destruct (VictoryZoom.handleEvent this O e); cbn [VictoryZoom.bind];
    [apply IH | reflexivity | reflexivity].
Qed.

Lemma constructor_invariant
      (onDomainChange : bool) (range : Q * Q) (chartWidth : option Q)
      (zoomDomain : option Domain) (O : Domain) :
  ~ fst range == snd range ->
  toNumber (fst O) < toNumber (snd O) ->
  (forall z, zoomDomain = Some z -> positiveWithin z O) ->
  zoomInvariant O
    (VictoryZoom.constructor onDomainChange range chartWidth zoomDomain O).
Proof.
  intros Hrange HO Hz. destruct range as [rangex1 rangex0].
  cbn [fst snd] in Hrange.
  split_invariant; cbn; try discriminate.
  - destruct chartWidth as [w |]; [| discriminate].
    unfold truthy. destruct (Qeq_bool w 0) eqn:E; cbn [negb]; [discriminate |].
    now apply Qeq_bool_neq.
  - lra.
  - destruct zoomDomain as [z |]; [now apply Hz |].
    repeat split; lra.
  - constructor.
Qed.

(** The domain after a move is read off the fields that a mouse-down
    records and the two widths. *)
Lemma onMouseMove_same_gesture
      (O : Domain) (this that : VictoryZoom.Instance) (clientX : Q)
      (a b : VictoryZoom.Instance) :
  VictoryZoom.isPanning this = true ->
  VictoryZoom.isPanning that = true ->
  VictoryZoom.targetBounds this = VictoryZoom.targetBounds that ->
  VictoryZoom.startX this = VictoryZoom.startX that ->
  VictoryZoom.lastDomain this = VictoryZoom.lastDomain that ->
  VictoryZoom.width this = VictoryZoom.width that ->
  VictoryZoom.plottableWidth this = VictoryZoom.plottableWidth that ->
  VictoryZoom.onMouseMove this O clientX = VictoryZoom.Done a ->
  VictoryZoom.onMouseMove that O clientX = VictoryZoom.Done b ->
  VictoryZoom.domain a = VictoryZoom.domain b.
Proof.
  intros Hon Hon' Etb Esx Eld Ew Epw.
  unfold VictoryZoom.onMouseMove, VictoryZoom.getDomainScale.
  rewrite Hon, Hon', Etb, Esx, Eld, Ew, Epw.
  destruct (VictoryZoom.targetBounds that) as [bounds |]; [| discriminate].
  destruct (VictoryZoom.startX that) as [start |]; [| discriminate].
  destruct (VictoryZoom.lastDomain that) as [[from to] |]; [| discriminate].
  destruct (divide (VictoryZoom.boundsWidth bounds) (VictoryZoom.width that));
    cbn [VictoryZoom.finite VictoryZoom.bind]; [| discriminate].
  destruct (divide _ (toNumber to - toNumber from));
    cbn [VictoryZoom.finite VictoryZoom.bind]; [| discriminate].
  destruct (divide _ _);
    cbn [VictoryZoom.finite VictoryZoom.bind]; [| discriminate].
  intros Ha Hb. injection Ha as <-. injection Hb as <-. reflexivity.
Qed.

(** *** No handler throws *)







(** *** Drags *)

Lemma zoomInvariant_mouseDown
      (O : Domain) (this : VictoryZoom.Instance)
      (clientX : Q) (svgBounds : VictoryZoom.Bounds) :
  zoomInvariant O this ->
  ~ VictoryZoom.boundsWidth svgBounds == 0 ->
  gestureReady (VictoryZoom.onMouseDown this clientX svgBounds).
Proof.
  intros (Hw & Hp & (_ & Hpos & _) & _) Hbw.
  unfold gestureReady, fieldsDefined. cbn.
  refine (conj Hw (conj Hp (conj _ (conj _ _)))).
  - intros last H. injection H as <-. lra.
  - intros bounds H. injection H as <-. exact Hbw.
  - intros _. repeat split; discriminate.
Qed.

Lemma setDomain_ready (this : VictoryZoom.Instance) (d : Domain) :
  gestureReady this -> gestureReady (VictoryZoom.setDomain this d).
Proof. intros H. exact H. Qed.

(** While panning, a move pans the domain recorded at the mouse-down by
    the pixels moved since then over the scale of the domain. *)
Lemma onMouseMove_panning (O : Domain) (this : VictoryZoom.Instance) (clientX : Q) :
  gestureReady this ->
  VictoryZoom.isPanning this = true ->
  exists bounds start last,
    VictoryZoom.targetBounds this = Some bounds /\
    VictoryZoom.startX this = Some start /\
    VictoryZoom.lastDomain this = Some last /\
    VictoryZoom.onMouseMove this O clientX =
      VictoryZoom.Done
        (VictoryZoom.setDomain this
           (pan last O
                ((start - (clientX - VictoryZoom.boundsLeft bounds))
                 / (VictoryZoom.boundsWidth bounds / VictoryZoom.width this
                    * VictoryZoom.plottableWidth this
                    / (toNumber (snd last) - toNumber (fst last)))))).
Proof.
  intros (Hw & Hp & Hl & Hb & Hf) Hon.
  destruct (Hf Hon) as (Htb & Hsx & Hld).
  destruct (VictoryZoom.targetBounds this) as [bounds |] eqn:Etb; [| congruence].
  destruct (VictoryZoom.startX this) as [start |] eqn:Esx; [| congruence].
  destruct (VictoryZoom.lastDomain this) as [last |] eqn:Eld; [| congruence].
  specialize (Hb bounds eq_refl). specialize (Hl last eq_refl).
  destruct last as [from to]. cbn [fst snd] in *.
  set (axis := VictoryZoom.boundsWidth bounds / VictoryZoom.width this
               * VictoryZoom.plottableWidth this).
  assert (Haxis : ~ axis == 0).
  { subst axis. intros H.
    apply (Qdiv_nonzero _ _ Hb Hw).
    destruct (Qmult_integral _ _ H) as [H' | H']; [exact H' | contradiction]. }
  pose proof (Qdiv_nonzero _ _ Haxis Hl) as Hs.
  exists bounds, start, (from, to).
  repeat split.
  unfold VictoryZoom.onMouseMove, VictoryZoom.getDomainScale.
  rewrite Hon, Etb, Esx, Eld.
  rewrite (divide_some _ _ Hw). cbn [VictoryZoom.finite VictoryZoom.bind].
  fold axis. rewrite (divide_some _ _ Hl). cbn [VictoryZoom.finite VictoryZoom.bind].
  rewrite (divide_some _ _ Hs). reflexivity.
Qed.

(** X28: a drag pans the domain that the state held at the mouse-down.
    Under the invariant, a mouse-down at [c0] followed by a move to [c]
    leaves the state with that domain panned by the pixels moved,
    [(c0 - left) - (c - left)], over the scale of the domain,
    [(targetBounds.width / width * plottableWidth) / (to - from)]. *)
Theorem zoom_drag_pans
        (O : Domain) (this : VictoryZoom.Instance)
        (c0 c : Q) (svgBounds : VictoryZoom.Bounds) :
  zoomInvariant O this ->
  ~ VictoryZoom.boundsWidth svgBounds == 0 ->
  exists final,
    VictoryZoom.run this O
      [VictoryZoom.MouseDown c0 svgBounds; VictoryZoom.MouseMove c]
    = VictoryZoom.Done final /\
    VictoryZoom.domain final =
      pan (VictoryZoom.domain this) O
          ((c0 - VictoryZoom.boundsLeft svgBounds
            - (c - VictoryZoom.boundsLeft svgBounds))
           / (VictoryZoom.boundsWidth svgBounds / VictoryZoom.width this
              * VictoryZoom.plottableWidth this
              / (toNumber (snd (VictoryZoom.domain this))
                 - toNumber (fst (VictoryZoom.domain this))))).
Proof.
  intros Hinv Hbw.
  pose proof (zoomInvariant_mouseDown O this c0 svgBounds Hinv Hbw) as Hdown.
  destruct (onMouseMove_panning O _ c Hdown eq_refl)
    as (bounds & start & last & Etb & Esx & Eld & Emove).
  cbn in Etb, Esx, Eld. injection Etb as <-. injection Esx as <-. injection Eld as <-.
  eexists. split.
  - cbn [VictoryZoom.run VictoryZoom.handleEvent VictoryZoom.bind].
    rewrite Emove. reflexivity.
  - reflexivity.
Qed.

Lemma zoom_drag_pans_witness :
  exists final,
    VictoryZoom.run
      (VictoryZoom.constructor false (0, 400) (Some 400) (Some (Num 40, Num 60))
                               (Num 0, Num 100))
      (Num 0, Num 100)
      [VictoryZoom.MouseDown 100 (VictoryZoom.mkBounds 0 400);
       VictoryZoom.MouseMove 300] = VictoryZoom.Done final /\
    VictoryZoom.domain final =
      pan (Num 40, Num 60) (Num 0, Num 100)
          ((100 - 0 - (300 - 0)) / (400 / 400 * (400 - 0) / (60 - 40))).
Proof.
  apply (zoom_drag_pans (Num 0, Num 100)
           (VictoryZoom.constructor false (0, 400) (Some 400)
                                    (Some (Num 40, Num 60)) (Num 0, Num 100))
           100 300 (VictoryZoom.mkBounds 0 400)).
  - apply constructor_invariant.
    + cbn. lra.
    + cbn. lra.
    + intros z H. injection H as <-. repeat split; cbn; lra.
  - cbn. lra.
Defined.

(** Moves keep what a mouse-down recorded. *)
Lemma moves_keep_gesture
      (O : Domain) (moves : list VictoryZoom.Event) (this : VictoryZoom.Instance) :
  gestureReady this ->
  VictoryZoom.isPanning this = true ->
  Forall VictoryZoom.isMove moves ->
  exists next,
    VictoryZoom.run this O moves = VictoryZoom.Done next /\
    gestureReady next /\
    VictoryZoom.isPanning next = true /\
    VictoryZoom.targetBounds next = VictoryZoom.targetBounds this /\
    VictoryZoom.startX next = VictoryZoom.startX this /\
    VictoryZoom.lastDomain next = VictoryZoom.lastDomain this /\
    VictoryZoom.width next = VictoryZoom.width this /\
    VictoryZoom.plottableWidth next = VictoryZoom.plottableWidth this.
Proof.
  revert this. induction moves as [| e rest IH]; intros this Hready Hon Hmoves.
  - exists this. split; [reflexivity |]. split; [assumption |].
    repeat split; auto.
  - inversion Hmoves as [| ? ? He Hrest]; subst.
    destruct e as [| | | clientX |]; try contradiction.
    destruct (onMouseMove_panning O this clientX Hready Hon)
      as (bounds & start & last & _ & _ & _ & Emove).
    match type of Emove with
    | _ = VictoryZoom.Done ?n =>
        destruct (IH n (setDomain_ready this _ Hready) Hon Hrest)
          as (next & Erun & Hn & Hp & Htb & Hsx & Hld & Hw & Hpw)
    end.
    exists next. cbn [VictoryZoom.run VictoryZoom.handleEvent].
    rewrite Emove. cbn [VictoryZoom.bind].
    split; [exact Erun |]. split; [exact Hn |].
    repeat split; assumption.
Qed.

(** X29: the moves of a drag do not add up.  Under the invariant, after a
    mouse-down and any number of moves, the domain that a move leaves is the
    one it leaves right after the mouse-down: it depends on where the drag
    began and where the pointer is, not on the way there. *)
Theorem zoom_drag_not_cumulative
        (O : Domain) (this : VictoryZoom.Instance)
        (c0 c : Q) (svgBounds : VictoryZoom.Bounds)
        (moves : list VictoryZoom.Event) :
  zoomInvariant O this ->
  ~ VictoryZoom.boundsWidth svgBounds == 0 ->
  Forall VictoryZoom.isMove moves ->
  exists long short,
    VictoryZoom.run this O
      (VictoryZoom.MouseDown c0 svgBounds :: moves ++ [VictoryZoom.MouseMove c])
    = VictoryZoom.Done long /\
    VictoryZoom.run this O
      [VictoryZoom.MouseDown c0 svgBounds; VictoryZoom.MouseMove c]
    = VictoryZoom.Done short /\
    VictoryZoom.domain long = VictoryZoom.domain short.
Proof.
  intros Hinv Hbw Hmoves.
  pose proof (zoomInvariant_mouseDown O this c0 svgBounds Hinv Hbw) as Hdown.
  set (down := VictoryZoom.onMouseDown this c0 svgBounds) in *.
  assert (Hon : VictoryZoom.isPanning down = true) by reflexivity.
  destruct (moves_keep_gesture O moves down Hdown Hon Hmoves)
    as (next & Erun & Hnext & Hon' & Etb & Esx & Eld & Ew & Epw).
  destruct (onMouseMove_panning O next c Hnext Hon')
    as (? & ? & last & _ & _ & _ & Elong).
  destruct (onMouseMove_panning O down c Hdown Hon)
    as (? & ? & last' & _ & _ & _ & Eshort).
  eexists. eexists. split; [| split].
  - cbn [VictoryZoom.run VictoryZoom.handleEvent VictoryZoom.bind]. fold down.
    rewrite run_app, Erun. cbn [VictoryZoom.run VictoryZoom.handleEvent VictoryZoom.bind].
    rewrite Elong. reflexivity.
  - cbn [VictoryZoom.run VictoryZoom.handleEvent VictoryZoom.bind]. fold down.
    rewrite Eshort. reflexivity.
  - apply (onMouseMove_same_gesture O next down c _ _ Hon' Hon Etb Esx Eld Ew Epw Elong Eshort).
Qed.

Lemma zoom_drag_not_cumulative_witness :
  exists long short,
    VictoryZoom.run
      (VictoryZoom.constructor false (0, 400) (Some 400) (Some (Num 40, Num 60))
                               (Num 0, Num 100))
      (Num 0, Num 100)
      (VictoryZoom.MouseDown 100 (VictoryZoom.mkBounds 0 400)
       :: [VictoryZoom.MouseMove 0; VictoryZoom.MouseMove 900]
          ++ [VictoryZoom.MouseMove 300]) = VictoryZoom.Done long /\
    VictoryZoom.run
      (VictoryZoom.constructor false (0, 400) (Some 400) (Some (Num 40, Num 60))
                               (Num 0, Num 100))
      (Num 0, Num 100)
      [VictoryZoom.MouseDown 100 (VictoryZoom.mkBounds 0 400);
       VictoryZoom.MouseMove 300] = VictoryZoom.Done short /\
    VictoryZoom.domain long = VictoryZoom.domain short.
Proof.
  apply (zoom_drag_not_cumulative (Num 0, Num 100)
           (VictoryZoom.constructor false (0, 400) (Some 400)
                                    (Some (Num 40, Num 60)) (Num 0, Num 100))
           100 300 (VictoryZoom.mkBounds 0 400)
           [VictoryZoom.MouseMove 0; VictoryZoom.MouseMove 900]).
  - apply constructor_invariant.
    + cbn. lra.
    + cbn. lra.
    + intros z H. injection H as <-. repeat split; cbn; lra.
  - cbn. lra.
  - repeat constructor.
Defined.

(** X30: while the component is not panning, moves change nothing: a
    sequence of moves leaves the instance as it is, so that after a
    mouse-up or a mouse-leave the moves that follow are ignored. *)
Theorem zoom_moves_ignored
        (O : Domain) (this : VictoryZoom.Instance)
        (moves : list VictoryZoom.Event) :
  Forall VictoryZoom.isMove moves ->
  (VictoryZoom.isPanning this = false ->
   VictoryZoom.run this O moves = VictoryZoom.Done this) /\
  VictoryZoom.run this O (VictoryZoom.MouseUp :: moves)
  = VictoryZoom.Done (VictoryZoom.stopPanning this) /\
  VictoryZoom.run this O (VictoryZoom.MouseLeave :: moves)
  = VictoryZoom.Done (VictoryZoom.stopPanning this).
Proof.
  intros Hmoves.
  assert (Hidle : forall inst, VictoryZoom.isPanning inst = false ->
                               VictoryZoom.run inst O moves = VictoryZoom.Done inst).
  { intros inst Hoff. induction Hmoves as [| e rest He Hrest IH]; [reflexivity |].
    destruct e as [| | | clientX |]; try contradiction.
    cbn [VictoryZoom.run VictoryZoom.handleEvent].
    unfold VictoryZoom.onMouseMove. rewrite Hoff. exact IH. }
  split; [apply Hidle |].
  split; cbn [VictoryZoom.run VictoryZoom.handleEvent VictoryZoom.bind];
    now apply Hidle.
Qed.

Lemma zoom_moves_ignored_witness :
  VictoryZoom.run
    (VictoryZoom.onMouseDown
       (VictoryZoom.constructor false (0, 400) None None (Num 0, Num 100))
       100 (VictoryZoom.mkBounds 0 400))
    (Num 0, Num 100)
    (VictoryZoom.MouseUp :: [VictoryZoom.MouseMove 7; VictoryZoom.MouseMove 300])
  = VictoryZoom.Done
      (VictoryZoom.stopPanning
         (VictoryZoom.onMouseDown
            (VictoryZoom.constructor false (0, 400) None None (Num 0, Num 100))
            100 (VictoryZoom.mkBounds 0 400))).
Proof.
  apply (zoom_moves_ignored (Num 0, Num 100)
           (VictoryZoom.onMouseDown
              (VictoryZoom.constructor false (0, 400) None None (Num 0, Num 100))
              100 (VictoryZoom.mkBounds 0 400))
           [VictoryZoom.MouseMove 7; VictoryZoom.MouseMove 300]).
  repeat constructor.
Defined.

Lemma getActiveHandles_result_witness :
  getActiveHandles (mkPoint 40 20) (boxProps None None None None) (mkBox 100 0 0 50)
  = Zero.
Proof.
  apply (proj1 (getActiveHandles_result (mkPoint 40 20)
                  (boxProps None None None None) (mkBox 100 0 0 50))).
  intros opt. destruct opt; reflexivity.
Defined.

